(** * Purchase-request workflow: a shallow embedding of [index.tsx]

    The development follows the source file section by section:
    the JS values and objects it exchanges with the remote stores, the
    [databaseService] gateway, the notification relay, the formatting
    utilities, the purchase form, the approval and purchasing pages, the
    dashboard statistics and the [App] shell with its sidebar. *)

From Stdlib Require Import QArith Ascii String.
From stdpp Require Import gmap strings list fin_maps infinite.

Local Open Scope string_scope.
Set Warnings "-register-all".

(* ===================================================================== *)
(** ** JS values *)
(* ===================================================================== *)

(** A JSON scalar, as a field of a stored document holds it. JS numbers
    are modelled by exact rationals: every number the claims mention is a
    short decimal, and [NaN] is kept apart (see [number] below). *)
Inductive json : Type :=
  | JStr (s : string)
  | JNum (q : Q)
  | JBool (b : bool).

Global Instance Q_eq_dec : EqDecision Q.
Proof. solve_decision. Defined.

Global Instance json_eq_dec : EqDecision json.
Proof. solve_decision. Defined.

(** The value of a JS expression: reading a field an object lacks gives
    [undefined]; [null] only arises as an argument. *)
Inductive jsval : Type :=
  | Undefined
  | Null
  | Val (j : json).

(** A flat JS object, as the form, the payloads and the documents of the
    tree are. *)
Abbreviation jsobj := (gmap string json).

Definition get (o : jsobj) (k : string) : jsval :=
  match o !! k with
  | Some j => Val j
  | None => Undefined
  end.

(** [s === ''] *)
Definition is_empty (s : string) : bool :=
  match s with
  | EmptyString => true
  | String _ _ => false
  end.

(** JS truthiness ([if (v)], [!v], [Boolean(v)]). *)
Definition truthy (v : jsval) : bool :=
  match v with
  | Undefined | Null => false
  | Val (JStr s) => negb (is_empty s)
  | Val (JNum q) => negb (Qeq_bool q 0)
  | Val (JBool b) => b
  end.

(** [a || b] *)
Definition js_or (a b : jsval) : jsval := if truthy a then a else b.

(** [a === 'literal'] for a field read from an object. *)
Definition str_is (v : jsval) (lit : string) : bool :=
  match v with
  | Val (JStr s) => String.eqb s lit
  | _ => false
  end.

(** [{ ...o, k: v }] is [<[k:=v]> o]; [{ k: v, ...o }] is [o ∪ {[k:=v]}]:
    in both the later entry wins. [spread base o] is [{ ...base, ...o }]. *)
Definition spread (base o : jsobj) : jsobj := o ∪ base.

(* ===================================================================== *)
(** ** The remote stores and the effect monad *)
(* ===================================================================== *)

(** A typed field value of the attribute document store. *)
Inductive fsvalue : Type :=
  | stringValue (s : string)
  | timestampValue (s : string)
  | arrayValue (values : list fsvalue).

Abbreviation fsdoc := (gmap string fsvalue).

(** Requests the client issues, in the order it issues them. *)
Inductive call : Type :=
  | PostCompras (body : jsobj)
  | GetCompras
  | PatchCompra (id : string) (body : jsobj)
  | PatchInvoice (id : string) (fields : fsdoc)
  | GetInvoice (id : string)
  | PostRelay (body : jsobj)
  | NotifyApprovers (body : jsobj).

(** Modelled from the spec: the two remote stores and the relay are
    external services that [fetch] reaches; section 6 gives their contract.
    The document tree under [/compras] maps generated keys to documents:
    [POST] creates a child under a key the server generates, [PATCH]
    merges fields into the document at the key, [GET] of the collection
    returns the mapping, or a value the client treats as empty when there
    is no data. The attribute store holds one document of typed fields per
    invoice path. [clock] is what [new Date().toISOString()] returns;
    [net] scripts the responses to come ([false]: the response is not
    [ok]; exhausted: [ok]); a response that is not [ok] leaves the stores
    as they were. [fsMerge] tells whether the attribute store's [PATCH]
    keeps the fields the body does not mention. *)
Record World : Type := mkWorld {
  compras : gmap string jsobj;
  invoices : gmap string fsdoc;
  clock : string;
  net : list bool;
  fsMerge : bool;
  sent : list call;
}.

(** [throw new Error(msg)] *)
Inductive exn : Type := Error (msg : string).

Inductive result (A : Type) : Type :=
  | Ok (a : A)
  | Throw (e : exn).
Arguments Ok {A} a.
Arguments Throw {A} e.

Definition M (A : Type) : Type := World -> result A * World.

Definition ret {A} (a : A) : M A := fun w => (Ok a, w).
Definition throw {A} (msg : string) : M A := fun w => (Throw (Error msg), w).
Definition bind {A B} (m : M A) (k : A -> M B) : M B :=
  fun w => match m w with
           | (Ok a, w') => k a w'
           | (Throw e, w') => (Throw e, w')
           end.
(** [try { m } catch (err) { h err }] *)
Definition try_catch {A} (m : M A) (h : exn -> M A) : M A :=
  fun w => match m w with
           | (Ok a, w') => (Ok a, w')
           | (Throw e, w') => h e w'
           end.

Declare Scope js_scope.
Delimit Scope js_scope with js.
Notation "x <- m ;; k" := (bind m (fun x => k))
  (at level 100, m at next level, right associativity) : js_scope.
Notation "m ;;; k" := (bind m (fun _ => k))
  (at level 100, right associativity) : js_scope.
Local Open Scope js_scope.

Record response (A : Type) : Type := mkResponse { ok : bool; body_json : A }.
Arguments mkResponse {A} ok body_json.
Arguments ok {A} r.
Arguments body_json {A} r.

Definition now : M string := fun w => (Ok (clock w), w).

Definition log (c : call) (w : World) : World :=
  mkWorld (compras w) (invoices w) (clock w) (net w) (fsMerge w) (sent w ++ [c]).

(** The status of the next response, taken from the script. *)
Definition next_ok (w : World) : bool * World :=
  match net w with
  | [] => (true, w)
  | b :: rest =>
      (b, mkWorld (compras w) (invoices w) (clock w) rest (fsMerge w) (sent w))
  end.

Definition set_compras (c : gmap string jsobj) (w : World) : World :=
  mkWorld c (invoices w) (clock w) (net w) (fsMerge w) (sent w).

Definition set_invoices (i : gmap string fsdoc) (w : World) : World :=
  mkWorld (compras w) i (clock w) (net w) (fsMerge w) (sent w).

(** [fetch(`${FIREBASE_URL}/compras.json`, { method: 'POST', body })]:
    the response carries the generated key under [name]. *)
Definition fetch_post_compras (body : jsobj) : M (response string) :=
  fun w =>
    let '(b, w1) := next_ok (log (PostCompras body) w) in
    let key := fresh (dom (compras w1)) in
    if b then (Ok (mkResponse true key), set_compras (<[key := body]> (compras w1)) w1)
    else (Ok (mkResponse false ""), w1).

(** [fetch(`${FIREBASE_URL}/compras.json`)] *)
Definition fetch_get_compras : M (response (option (gmap string jsobj))) :=
  fun w =>
    let '(b, w1) := next_ok (log GetCompras w) in
    if b then
      (Ok (mkResponse true
             (if decide (compras w1 = ∅) then None else Some (compras w1))), w1)
    else (Ok (mkResponse false None), w1).

(** [fetch(`${FIREBASE_URL}/compras/${id}.json`, { method: 'PATCH', body })]:
    the fields of [body] are merged into the document at [id]. *)
Definition fetch_patch_compra (id : string) (body : jsobj) : M (response jsobj) :=
  fun w =>
    let '(b, w1) := next_ok (log (PatchCompra id body) w) in
    if b then
      let old := default ∅ (compras w1 !! id) in
      (Ok (mkResponse true body), set_compras (<[id := spread old body]> (compras w1)) w1)
    else (Ok (mkResponse false ∅), w1).

(** [fetch(firestorePath, { method: 'PATCH', body: { fields } })] *)
Definition fetch_patch_invoice (id : string) (fields : fsdoc) : M (response unit) :=
  fun w =>
    let '(b, w1) := next_ok (log (PatchInvoice id fields) w) in
    if b then
      let old := default ∅ (invoices w1 !! id) in
      let doc := if fsMerge w1 then fields ∪ old else fields in
      (Ok (mkResponse true tt), set_invoices (<[id := doc]> (invoices w1)) w1)
    else (Ok (mkResponse false tt), w1).

(** [fetch(firestorePath)]: a path without a document answers not [ok]. *)
Definition fetch_get_invoice (id : string) : M (response fsdoc) :=
  fun w =>
    let '(b, w1) := next_ok (log (GetInvoice id) w) in
    match invoices w1 !! id with
    | Some doc => if b then (Ok (mkResponse true doc), w1)
                  else (Ok (mkResponse false ∅), w1)
    | None => (Ok (mkResponse false ∅), w1)
    end.

(* ===================================================================== *)
(** ** DATABASE SERVICES *)
(* ===================================================================== *)

Module databaseService.

Definition addPurchaseRequest (requestData : jsobj) : M string :=
  response <- fetch_post_compras requestData ;;
  if negb (ok response) then
    throw "Falha ao enviar a solicitação de compra."
  else ret (body_json response).

(** [Object.keys(data).map(key => ({ id: key, ...data[key] }))] *)
Definition with_id (kv : string * jsobj) : jsobj :=
  spread {[ "id" := JStr kv.1 ]} kv.2.

Definition getPurchaseRequests : M (list jsobj) :=
  response <- fetch_get_compras ;;
  if negb (ok response) then
    throw "Falha ao buscar as Solicitações de compra."
  else
    match body_json response with
    | None => ret []
    | Some data => ret (with_id <$> map_to_list data)
    end.

(** The [status] parameter has type ['aprovado' | 'reprovado']. *)
Inductive decision : Type := aprovado | reprovado.

Definition decision_str (d : decision) : string :=
  match d with
  | aprovado => "aprovado"
  | reprovado => "reprovado"
  end.

(** [justification || ''] on an optional string. *)
Definition or_empty (justification : option string) : string :=
  match justification with
  | Some s => if is_empty s then "" else s
  | None => ""
  end.

Definition status_payload (status : decision) (justification : option string)
    (t : string) : jsobj :=
  let payload : jsobj := {[ "status" := JStr (decision_str status) ]} in
  match status with
  | aprovado => <[ "approvedAt" := JStr t ]> payload
  | reprovado =>
      <[ "justification" := JStr (or_empty justification) ]>
        (<[ "rejectedAt" := JStr t ]> payload)
  end.

Definition updatePurchaseRequestStatus (id : string) (status : decision)
    (justification : option string) : M jsobj :=
  t <- now ;;
  let payload := status_payload status justification t in
  response <- fetch_patch_compra id payload ;;
  if negb (ok response) then
    throw "Falha ao atualizar o status da solicitação."
  else ret (body_json response).

Definition purchase_payload (purchaseData : jsobj) (t : string) : jsobj :=
  spread (<[ "purchasedAt" := JStr t ]> {[ "status" := JStr "comprado" ]})
         purchaseData.

Definition confirmPurchase (id : string) (purchaseData : jsobj) : M jsobj :=
  t <- now ;;
  let payload := purchase_payload purchaseData t in
  response <- fetch_patch_compra id payload ;;
  if negb (ok response) then
    throw "Falha ao confirmar a compra."
  else ret (body_json response).

Record invoice : Type := mkInvoice {
  pages : list string;
  mimeType : string;
  originalName : option string;
}.

Definition invoice_fields (inv : invoice) (t : string) : fsdoc :=
  let fields : fsdoc :=
    <[ "pages" := arrayValue (stringValue <$> pages inv) ]>
      {[ "mimeType" := stringValue (mimeType inv) ]} in
  let fields :=
    match originalName inv with
    | Some name =>
        if is_empty name then fields
        else <[ "originalName" := stringValue name ]> fields
    | None => fields
    end in
  <[ "updatedAt" := timestampValue t ]> fields.

Definition uploadAndLinkInvoice (id : string) (inv : invoice) : M unit :=
  if Nat.eqb (length (pages inv)) 0 then
    throw "Nenhuma página foi processada para a nota fiscal."
  else
    (* 1. Save to Firestore *)
    t <- now ;;
    firestoreResponse <- fetch_patch_invoice id (invoice_fields inv t) ;;
    if negb (ok firestoreResponse) then
      throw "Falha ao salvar a nota fiscal no Firestore."
    else
      (* 2. Link in Realtime Database *)
      rtdbResponse <-
        fetch_patch_compra id
          (<[ "invoicePagesCount" := JNum (inject_Z (Z.of_nat (length (pages inv)))) ]>
             {[ "hasInvoice" := JBool true ]}) ;;
      if negb (ok rtdbResponse) then
        throw "Falha ao vincular a nota fiscal no Realtime DB."
      else ret tt.

(** [fields?.k?.stringValue]: [None] is [undefined]. *)
Definition string_of (v : option fsvalue) : option string :=
  match v with
  | Some (stringValue s) => Some s
  | _ => None
  end.

(** [Boolean(value)] on [string | undefined]. *)
Definition nonempty (v : option string) : bool :=
  match v with
  | Some s => negb (is_empty s)
  | None => false
  end.

(** [fields.pages?.arrayValue?.values?.map(value => value?.stringValue)
      .filter(value => Boolean(value))] *)
Definition page_values (fields : fsdoc) : option (list string) :=
  match fields !! "pages" with
  | Some (arrayValue values) =>
      Some (omap (fun value =>
                    let s := string_of (Some value) in
                    if nonempty s then s else None) values)
  | _ => None
  end.

Definition getInvoice (id : string) : M (list string * string) :=
  response <- fetch_get_invoice id ;;
  if negb (ok response) then
    throw "Nota fiscal não encontrada."
  else
    let fields := body_json response in
    if negb (nonempty (string_of (fields !! "mimeType"))) then
      throw "Formato da nota fiscal inválido no banco de dados."
    else
      let mimeType := default "" (string_of (fields !! "mimeType")) in
      let pageValues := page_values fields in
      match pageValues with
      | Some (p :: ps) => ret (p :: ps, mimeType)
      | _ =>
          if nonempty (string_of (fields !! "invoiceData")) then
            ret ([default "" (string_of (fields !! "invoiceData"))], mimeType)
          else throw "Nenhuma página encontrada para esta nota fiscal."
      end.

End databaseService.

(* ===================================================================== *)
(** ** NOTIFICATION SERVICE *)
(* ===================================================================== *)

(** The relay is fire-and-forget: the request is issued, its outcome is
    never read by the caller and a failure is swallowed. It is recorded in
    [sent] and touches neither store nor the response script. *)
Definition sendNotificationRequest (payload : jsobj) : M unit :=
  fun w => (Ok tt, log (PostRelay payload) w).

Module notificationService.

Definition sendPurchaseConfirmationEmail (requestData : jsobj) : M unit :=
  sendNotificationRequest (<[ "notificationType" := JStr "pedido_recebido" ]> requestData).

Definition sendPurchaseStatusUpdateEmail (requestData : jsobj)
    (status : databaseService.decision) (justification : option string) : M unit :=
  let payload :=
    <[ "notificationType" :=
         JStr (match status with
               | databaseService.aprovado => "pedido_aprovado"
               | databaseService.reprovado => "pedido_reprovado"
               end) ]>
      (<[ "status" := JStr (databaseService.decision_str status) ]> requestData) in
  let payload :=
    match status with
    | databaseService.reprovado =>
        (* justification ?? requestData.justification ?? '' *)
        <[ "rejectionJustification" :=
             match justification with
             | Some j => JStr j
             | None => default (JStr "") (requestData !! "justification")
             end ]> payload
    | databaseService.aprovado => payload
    end in
  sendNotificationRequest payload.

Definition sendPurchaseTransitEmail (requestData purchaseData : jsobj) : M unit :=
  sendNotificationRequest
    (<[ "notificationType" := JStr "pedido_a_caminho" ]>
       (<[ "status" := JStr "comprado" ]> (spread requestData purchaseData))).

(** The approver contacts are looked up and mailed asynchronously; the
    caller only starts the lookup. *)
Definition notifyApproversAboutRequest (requestData : jsobj) : M unit :=
  fun w => (Ok tt, log (NotifyApprovers requestData) w).

End notificationService.

(* ===================================================================== *)
(** ** FORMATTING UTILITIES *)
(* ===================================================================== *)

(** A JS number as [parseFloat] returns it. *)
Inductive number : Type :=
  | NaN
  | Num (q : Q).

Definition isNaN (n : number) : bool :=
  match n with
  | NaN => true
  | Num _ => false
  end.

Definition is_digit (c : ascii) : bool :=
  let n := nat_of_ascii c in (48 <=? n)%nat && (n <=? 57)%nat.

Definition digit_val (c : ascii) : Z := Z.of_nat (nat_of_ascii c - 48).

(** The class [[\d,.-]] of the cleaning regular expression. *)
Definition is_money_char (c : ascii) : bool :=
  is_digit c || Ascii.eqb c "," || Ascii.eqb c "." || Ascii.eqb c "-".


Fixpoint filter_chars (keep : ascii -> bool) (s : string) : string :=
  match s with
  | EmptyString => EmptyString
  | String c rest =>
      if keep c then String c (filter_chars keep rest) else filter_chars keep rest
  end.

(** [s.replace(',', '.')]: a string pattern replaces the first match only. *)
Fixpoint replace_first (a b : ascii) (s : string) : string :=
  match s with
  | EmptyString => EmptyString
  | String c rest =>
      if Ascii.eqb c a then String b rest else String c (replace_first a b rest)
  end.

(** [value.replace(/[^\d,.-]+/g, '').replace(/\./g, '').replace(',', '.')] *)
Definition clean_currency (value : string) : string :=
  replace_first "," "."
    (filter_chars (fun c => negb (Ascii.eqb c "."))
       (filter_chars is_money_char value)).

(** Reads a run of decimal digits: its value, its length, what follows. *)
Fixpoint read_digits (s : string) (acc : Z) (count : nat) : Z * nat * string :=
  match s with
  | EmptyString => (acc, count, s)
  | String c rest =>
      if is_digit c then read_digits rest (10 * acc + digit_val c)%Z (S count)
      else (acc, count, s)
  end.

(** [parseFloat] on a string without leading white space, exponent part or
    [Infinity], which is all [clean_currency] can produce (see
    [clean_currency_chars]): the longest prefix that is a decimal literal
    (a sign, digits, a point, digits; one digit at least), else [NaN]. *)
Definition parseFloat (s : string) : number :=
  let '(neg, s1) :=
    match s with
    | String "-" rest => (true, rest)
    | String "+" rest => (false, rest)
    | _ => (false, s)
    end in
  let '(int_part, n_int, s2) := read_digits s1 0 0 in
  let '(frac_part, n_frac) :=
    match s2 with
    | String "." rest => let '(f, n, _) := read_digits rest 0 0 in (f, n)
    | _ => (0%Z, 0%nat)
    end in
  if Nat.eqb (n_int + n_frac) 0 then NaN
  else
    let scale := (10 ^ Z.of_nat n_frac)%Z in
    let mag := (int_part * scale + frac_part)%Z in
    Num (Qmake (if neg then - mag else mag)%Z (Z.to_pos scale)).

Section Formatting.

(** [new Intl.NumberFormat('pt-BR', { style: 'currency', currency:
    'BRL' }).format] and [String] on a number are the platform's. *)
Variable formatBRL : Q -> string.
Variable numberToString : Q -> string.

(** [String(value)] *)
Definition String_ (v : jsval) : string :=
  match v with
  | Undefined => "undefined"
  | Null => "null"
  | Val (JStr s) => s
  | Val (JNum q) => numberToString q
  | Val (JBool b) => if b then "true" else "false"
  end.


End Formatting.

(* ===================================================================== *)
(** ** Users and roles *)
(* ===================================================================== *)

Inductive Role : Type := admin | user | comprador | aprovador.

Global Instance Role_eq_dec : EqDecision Role.
Proof. solve_decision. Defined.

Record User : Type := mkUser {
  uid : string;
  email : string;
  displayName : string;
  isVerified : bool;
  role : option Role;
}.

(** [user.role || 'user'] *)
Definition role_or_user (u : User) : Role := default user (role u).

(* ===================================================================== *)
(** ** PurchaseForm *)
(* ===================================================================== *)

Module PurchaseForm.

Record FormData : Type := mkFormData {
  nome : string; email : string; unidade : string; prazo : string;
  prazoDataHora : string; urgencia : string; tipo : string;
  descricaoServico : string; querIndicar : string; nomeIndicado : string;
  nomeProduto : string; quantidadeProduto : string;
  querLink : string; linkProduto : string;
}.

Definition initialFormData : FormData :=
  mkFormData "" "" "" "nao" "" "" "" "" "nao" "" "" "" "nao" "".

(** The fields of the form, as the spread [...formData] lists them. *)
Definition fields (d : FormData) : list (string * string) :=
  [ ("nome", nome d); ("email", email d); ("unidade", unidade d);
    ("prazo", prazo d); ("prazoDataHora", prazoDataHora d);
    ("urgencia", urgencia d); ("tipo", tipo d);
    ("descricaoServico", descricaoServico d);
    ("querIndicar", querIndicar d); ("nomeIndicado", nomeIndicado d);
    ("nomeProduto", nomeProduto d);
    ("quantidadeProduto", quantidadeProduto d);
    ("querLink", querLink d); ("linkProduto", linkProduto d) ].

Definition formData_obj (d : FormData) : jsobj :=
  list_to_map (prod_map id JStr <$> fields d).

Inductive statusType : Type := success | error.

Record SubmitStatus : Type := mkSubmitStatus {
  message : string;
  type : statusType;
}.

Record State : Type := mkState {
  formData : FormData;
  isSubmitting : bool;
  submitStatus : option SubmitStatus;
}.

(** [if (cond) errors.push(label)] *)
Definition push_if (cond : bool) (label : string) (errors : list string)
    : list string :=
  if cond then errors ++ [label] else errors.

(** The validation block of [handleSubmit]: the labels pushed to
    [errors], in the order of the [if]s. *)
Definition validate (d : FormData) : list string :=
  let errors := [] in
  let errors := push_if (is_empty (unidade d)) "Unidade" errors in
  let errors := push_if (is_empty (urgencia d)) "Grau de urgência" errors in
  let errors := push_if (is_empty (tipo d)) "Tipo" errors in
  let errors :=
    push_if (String.eqb (prazo d) "sim" && is_empty (prazoDataHora d))
      "Data e Hora do Prazo" errors in
  let errors :=
    if String.eqb (tipo d) "servico" then
      let errors :=
        push_if (is_empty (descricaoServico d)) "Descrição do serviço" errors in
      push_if (String.eqb (querIndicar d) "sim" && is_empty (nomeIndicado d))
        "Nome de quem quer indicar" errors
    else errors in
  let errors :=
    if String.eqb (tipo d) "produto" then
      let errors := push_if (is_empty (nomeProduto d)) "Produto (nome)" errors in
      let errors := push_if (is_empty (quantidadeProduto d)) "Quantidade" errors in
      push_if (String.eqb (querLink d) "sim" && is_empty (linkProduto d))
        "Link do produto" errors
    else errors in
  errors.

(** [`Por favor, preencha os campos obrigatórios: ${errors.join(', ')}.`] *)
Definition validation_message (errors : list string) : string :=
  "Por favor, preencha os campos obrigatórios: "
    ++ String.concat ", " errors ++ ".".

Definition requestData (d : FormData) (u : User) (t : string) : jsobj :=
  <[ "status" := JStr "pendente" ]>
    (<[ "createdAt" := JStr t ]>
       (<[ "requesterUid" := JStr (uid u) ]> (formData_obj d))).

(** The fields of [initialFormData] but [nome] and [email] are reset. *)
Definition reset_form (prev : FormData) : FormData :=
  mkFormData (nome prev) (email prev) "" "nao" "" "" "" "" "nao" "" "" "" "nao" "".

Definition handleSubmit (u : User) (onFormSubmit : option (M unit))
    (st : State) : M State :=
  let d := formData st in
  let errors := validate d in
  if (0 <? length errors)%nat then
    ret (mkState d (isSubmitting st)
           (Some (mkSubmitStatus (validation_message errors) error)))
  else
    t <- now ;;
    let requestData := requestData d u t in
    try_catch
      (newRequestId <- databaseService.addPurchaseRequest requestData ;;
       notificationService.sendPurchaseConfirmationEmail
         (<[ "id" := JStr newRequestId ]> requestData) ;;;
       notificationService.notifyApproversAboutRequest
         (<[ "id" := JStr newRequestId ]> requestData) ;;;
       match onFormSubmit with
       | Some callback => callback
       | None => ret tt
       end ;;;
       ret (mkState (reset_form d) false
              (Some (mkSubmitStatus
                       "Solicitação enviada com sucesso! Um e-mail de confirmação será enviado em breve."
                       success))))
      (fun err =>
         let 'Error msg := err in
         ret (mkState d false
                (Some (mkSubmitStatus
                         (if is_empty msg
                          then "Ocorreu um erro ao enviar a solicitação."
                          else msg) error)))).

End PurchaseForm.

(* ===================================================================== *)
(** ** APROVAR COMPRAS PAGE and SETOR COMPRAS PAGE: what the tables offer *)
(* ===================================================================== *)

Inductive tab : Type := pendentes | historico.

Module AprovarComprasPage.

Definition filteredRequests (activeTab : tab) (requests : list jsobj)
    : list jsobj :=
  List.filter
    (fun req =>
       match activeTab with
       | pendentes => str_is (get req "status") "pendente"
       | historico => negb (str_is (get req "status") "pendente")
       end) requests.

(** The [Aprovar] and [Reprovar] buttons of a row. *)
Definition offersDecision (req : jsobj) : bool :=
  str_is (get req "status") "pendente".

End AprovarComprasPage.

Module SetorComprasPage.

Definition relevantRequests (data : list jsobj) : list jsobj :=
  List.filter
    (fun req => str_is (get req "status") "aprovado"
                || str_is (get req "status") "comprado") data.

Definition filteredRequests (activeTab : tab) (requests : list jsobj)
    : list jsobj :=
  List.filter
    (fun req =>
       match activeTab with
       | pendentes => str_is (get req "status") "aprovado"
       | historico => str_is (get req "status") "comprado"
       end) requests.

(** The fields the purchase modal collects, by request type. *)
Definition fulfillmentFields : list string :=
  [ "valorProduto"; "linkCotacao1"; "linkCotacao2"; "linkCotacao3";
    "previsaoChegada"; "valorServico"; "dataRealizacao" ].

End SetorComprasPage.

(* ===================================================================== *)
(** ** DashboardsPage: the statistics *)
(* ===================================================================== *)

Module DashboardsPage.
Section Stats.

Variable numberToString : Q -> string.

Record Acc : Type := mkAcc {
  spendingByUnit : gmap string Q;
  unassignedSpending : Q;
  totalSpent : Q;
  completedPurchases : nat;
  rejectedRequests : nat;
}.

Definition units : list string :=
  [ "Unidade 1"; "Unidade 2"; "Unidade 3";
    "Unidade 4"; "Unidade 5"; "Unidade 6" ].

Definition acc0 : Acc :=
  mkAcc (list_to_map ((fun u => (u, 0%Q)) <$> units)) 0 0 0 0.

(** The amount the [if (value) { ... }] block adds for [value]:
    [None] when nothing is added. *)
Definition numericValue (value : jsval) : option Q :=
  if truthy value then
    let cleanedValue := clean_currency (String_ numberToString value) in
    match parseFloat cleanedValue with
    | NaN => None
    | Num q => Some q
    end
  else None.

(** [hasOwnProperty(unitName)] on a truthy [req.unidade]. *)
Definition unit_key (a : Acc) (unidade : jsval) : option string :=
  match unidade with
  | Val (JStr unitName) =>
      if negb (is_empty unitName)
         && bool_decide (is_Some (spendingByUnit a !! unitName))
      then Some unitName else None
  | _ => None
  end.

Definition add_spending (a : Acc) (unidade : jsval) (q : Q) : Acc :=
  match unit_key a unidade with
  | Some unitName =>
      mkAcc (<[ unitName := (default 0 (spendingByUnit a !! unitName) + q)%Q ]>
               (spendingByUnit a))
            (unassignedSpending a) (totalSpent a + q)
            (completedPurchases a) (rejectedRequests a)
  | None =>
      mkAcc (spendingByUnit a) (unassignedSpending a + q) (totalSpent a + q)
            (completedPurchases a) (rejectedRequests a)
  end.

(** The body of [data.forEach(req => { ... })]. *)
Definition step (a : Acc) (req : jsobj) : Acc :=
  let a :=
    if str_is (get req "status") "comprado" then
      let a := mkAcc (spendingByUnit a) (unassignedSpending a) (totalSpent a)
                     (S (completedPurchases a)) (rejectedRequests a) in
      let value := js_or (get req "valorProduto") (get req "valorServico") in
      match numericValue value with
      | Some q => add_spending a (get req "unidade") q
      | None => a
      end
    else a in
  if str_is (get req "status") "reprovado" then
    mkAcc (spendingByUnit a) (unassignedSpending a) (totalSpent a)
          (completedPurchases a) (S (rejectedRequests a))
  else a.

Definition calculateStats (data : list jsobj) : Acc := foldl step acc0 data.



End Stats.
End DashboardsPage.

(* ===================================================================== *)
(** ** App: the sidebar badges and the views a role reaches *)
(* ===================================================================== *)

Module App.

Record Counts : Type := mkCounts {
  pendingApprovalsCount : nat;
  pendingPurchasesCount : nat;
}.

(** The two [filter(...).length] of [fetchCounts]. *)
Definition derivedCounts (requests : list jsobj) : Counts :=
  let approvals :=
    length (List.filter (fun r => str_is (get r "status") "pendente") requests) in
  let purchases :=
    length (List.filter (fun r => str_is (get r "status") "aprovado") requests) in
  mkCounts approvals purchases.

(** [fetchCounts]: the new badges, or the old ones when the listing
    fails (the error is logged only). *)
Definition fetchCounts (old : Counts) : M Counts :=
  try_catch
    (requests <- databaseService.getPurchaseRequests ;;
     ret (derivedCounts requests))
    (fun _ => ret old).

Inductive view : Type :=
  | formulario | setor_compras | aprovar_compras | dashboards | admin_view.

Global Instance view_eq_dec : EqDecision view.
Proof. solve_decision. Defined.

(** The ids of [allNavItems] in the sidebar. *)
Definition allNavItems : list view :=
  [ formulario; setor_compras; aprovar_compras; dashboards ].

(** [rolePermissions] of the sidebar; [admin] is answered before it. *)
Definition sidebarPermissions (r : Role) : option (list view) :=
  match r with
  | comprador => Some [ formulario; setor_compras ]
  | aprovador => Some [ formulario; aprovar_compras ]
  | user => Some [ formulario ]
  | admin => None
  end.

Definition visibleNavItems (u : User) : list view :=
  let role := role_or_user u in
  List.filter
    (fun item =>
       if decide (role = admin) then true
       else match sidebarPermissions role with
            | Some allowed => bool_decide (item ∈ allowed)
            | None => false
            end) allNavItems.

(** [rolePermissions] of the effect that picks the first view. *)
Definition rolePermissions (r : Role) : list view :=
  match r with
  | comprador => [ formulario; setor_compras ]
  | aprovador => [ formulario; aprovar_compras ]
  | user => [ formulario ]
  | admin => [ formulario; setor_compras; aprovar_compras; dashboards; admin_view ]
  end.

Definition defaultView (u : User) : view :=
  List.hd formulario (rolePermissions (role_or_user u)).

(** What the user can do to [activeView]: the effect on [user.role],
    a click on a visible item of the sidebar, the [Admin] entry of the
    settings menu (rendered for [user.role === 'admin']). *)
Inductive click (u : User) : view -> view -> Prop :=
  | click_effect v : click u v (defaultView u)
  | click_nav v item : item ∈ visibleNavItems u -> click u v item
  | click_admin v : role u = Some admin -> click u v admin_view.

(** [useState('formulario')], then any number of clicks. *)
Inductive reachable (u : User) : view -> Prop :=
  | reach_init : reachable u formulario
  | reach_click v v' : reachable u v -> click u v v' -> reachable u v'.

Inductive page : Type :=
  | PurchaseFormPage | SetorComprasPage_ | AprovarComprasPage_
  | DashboardsPage_ | AdminPage.

Definition renderContent (activeView : view) : page :=
  match activeView with
  | formulario => PurchaseFormPage
  | setor_compras => SetorComprasPage_
  | aprovar_compras => AprovarComprasPage_
  | dashboards => DashboardsPage_
  | admin_view => AdminPage
  end.

End App.

(* ===================================================================== *)
(** ** AUTH UTILITIES & SERVICES *)
(* ===================================================================== *)

(** [a === b] on the values of two expressions. *)
Definition strict_eq (a b : jsval) : bool :=
  match a, b with
  | Undefined, Undefined => true
  | Null, Null => true
  | Val (JStr s), Val (JStr t) => String.eqb s t
  | Val (JNum p), Val (JNum q) => Qeq_bool p q
  | Val (JBool x), Val (JBool y) => Bool.eqb x y
  | _, _ => false
  end.

(** [s.replace(/c/g, d)] for a one-character pattern. *)
Fixpoint replace_all (c d : ascii) (s : string) : string :=
  match s with
  | EmptyString => EmptyString
  | String x rest =>
      String (if Ascii.eqb x c then d else x) (replace_all c d rest)
  end.

Module authService.
Section Platform.

(** [String.prototype.toLowerCase], [String] on a number and the SHA-256
    digest in hexadecimal are the platform's. *)
Variable toLowerCase : string -> string.
Variable numberToString : Q -> string.
Variable sha256 : string -> string.

Definition sanitizeEmail (email : string) : string :=
  if is_empty email then ""
  else
    replace_all "]" "_"
      (replace_all "[" "_"
         (replace_all "$" "_"
            (replace_all "#" "_"
               (replace_all "." "," (toLowerCase email))))).

(** The [user] object [signUp] writes with [PUT] at
    [/users/${sanitizedEmail}]; [createdAt] is [Date.now()]. *)
Definition signUp_user (email password displayName : string) (createdAt : Q)
    : jsobj :=
  list_to_map
    [ ("displayName", JStr displayName);
      ("email", JStr email);
      ("passwordHash", JStr (sha256 password));
      ("isVerified", JBool false);
      ("createdAt", JNum createdAt);
      ("uid", JStr (sanitizeEmail email));
      ("role", JStr "user") ].

(** The outcome of [signIn]: the session user returned, and whether the
    stored user was patched with the default role on the way. *)
Record SignedIn : Type := mkSignedIn {
  session_user : jsobj;
  role_patched : bool;
}.

(** [signIn] as a function of the answer to
    [fetch(FIREBASE_URL + userPath)]. The object returned has the six
    fields [uid], [email], [displayName], [isVerified], [createdAt] and
    [role], each when the stored user has it. *)
Definition signIn (response : response (option jsobj)) (password : string)
    : result SignedIn :=
  if negb (ok response) then Throw (Error "E-mail ou senha incorretos.")
  else
    match body_json response with
    | None => Throw (Error "E-mail ou senha incorretos.")
    | Some stored =>
        let passwordHash := sha256 password in
        if negb (strict_eq (get stored "passwordHash") (Val (JStr passwordHash)))
        then Throw (Error "E-mail ou senha incorretos.")
        else if negb (truthy (get stored "isVerified"))
        then Throw (Error "Seu e-mail ainda não foi verificado. Por favor, verifique sua caixa de entrada.")
        else
          let patch := negb (truthy (get stored "role")) in
          let stored := if patch then <[ "role" := JStr "user" ]> stored else stored in
          Ok (mkSignedIn
                (filter (fun kv : string * json =>
                           kv.1 ∈ [ "uid"; "email"; "displayName"; "isVerified";
                                    "createdAt"; "role" ]) stored)
                patch)
    end.

Record ApproverContact : Type := mkApproverContact {
  contact_email : json;
  contact_displayName : json;
  contact_role : string;
}.

(** [contactsMap] is a [Map] keyed by the lower-cased e-mail: an
    association list in insertion order. *)
Definition contactsMap_has (contactsMap : list (string * ApproverContact))
    (emailKey : string) : bool :=
  existsb (fun entry => String.eqb entry.1 emailKey) contactsMap.

(** The body of [Object.values(usersData).forEach(user => { ... })];
    the user is [usr] here. *)
Definition add_contact (contactsMap : list (string * ApproverContact))
    (usr : jsobj) : list (string * ApproverContact) :=
  let role := js_or (get usr "role") (Val (JStr "user")) in
  match role, get usr "email" with
  | Val (JStr r), Val email =>
      if (String.eqb r "admin" || String.eqb r "aprovador")
         && truthy (Val email)
      then
        let emailKey := toLowerCase (String_ numberToString (Val email)) in
        if negb (contactsMap_has contactsMap emailKey) then
          (contactsMap ++
           [ (emailKey,
              mkApproverContact email
                (match js_or (get usr "displayName") (Val (JStr "Gestor")) with
                 | Val name => name
                 | _ => JStr "Gestor"
                 end)
                r) ])%list
        else contactsMap
      else contactsMap
  | _, _ => contactsMap
  end.

(** [getApproverContacts] as a function of the answer to
    [fetch(FIREBASE_URL + '/users.json')]: a failure is logged and gives
    no contact. *)
Definition getApproverContacts
    (response : response (option (gmap string jsobj))) : list ApproverContact :=
  if negb (ok response) then []
  else
    match body_json response with
    | None => []
    | Some usersData =>
        snd <$> foldl add_contact [] (snd <$> map_to_list usersData)
    end.

End Platform.
End authService.

(* ===================================================================== *)
(** ** The handlers of the approval and purchasing pages *)
(* ===================================================================== *)

Module AprovarComprasHandlers.
Section Handlers.

(** [String] on a number, for a request id spliced into the URL. *)
Variable numberToString : Q -> string.

Record PageState : Type := mkPageState {
  requests : list jsobj;
  pageError : option string;
  isUpdating : bool;
  requestToApprove : option jsobj;
  requestToReject : option jsobj;
}.

(** [prev.map(req => req.id === id ? { ...req, status: newStatus,
    justification } : req)]; a [justification] that is [undefined] reads
    as an absent field. *)
Definition handleLocalStatusUpdate (id : jsval)
    (newStatus : databaseService.decision) (justification : option string)
    (prev : list jsobj) : list jsobj :=
  (fun req : jsobj =>
     if strict_eq (get req "id") id then
       let updated := <[ "status" := JStr (databaseService.decision_str newStatus) ]> req in
       match justification with
       | Some j => <[ "justification" := JStr j ]> updated
       | None => delete "justification" updated
       end
     else req) <$> prev.

(** The common shape of [handleConfirmApproval] and
    [handleConfirmRejection]: the [try] block up to the local update, then
    the rest of it, the [catch] and the [finally]. *)
Definition confirm_decision (failure : string)
    (status : databaseService.decision) (justification : option string)
    (onStatusUpdate : M unit) (req : jsobj) (st : PageState)
    (cleared : PageState -> PageState) : M PageState :=
  written <-
    try_catch
      (databaseService.updatePurchaseRequestStatus
         (String_ numberToString (get req "id")) status justification ;;;
       ret true)
      (fun _ => ret false) ;;
  if written then
    let updated :=
      handleLocalStatusUpdate (get req "id") status justification (requests st) in
    try_catch
      (notificationService.sendPurchaseStatusUpdateEmail req status justification ;;;
       onStatusUpdate ;;;
       ret (cleared (mkPageState updated (pageError st) false
                       (requestToApprove st) (requestToReject st))))
      (fun _ =>
         ret (cleared (mkPageState updated (Some failure) false
                         (requestToApprove st) (requestToReject st))))
  else
    ret (cleared (mkPageState (requests st) (Some failure) false
                    (requestToApprove st) (requestToReject st))).

Definition handleConfirmApproval (onStatusUpdate : M unit) (st : PageState)
    : M PageState :=
  match requestToApprove st with
  | None => ret st
  | Some req =>
      confirm_decision "Falha ao aprovar a solicitação."
        databaseService.aprovado None onStatusUpdate req st
        (fun s => mkPageState (requests s) (pageError s) (isUpdating s)
                    None (requestToReject s))
  end.

Definition handleConfirmRejection (onStatusUpdate : M unit)
    (justification : string) (st : PageState) : M PageState :=
  match requestToReject st with
  | None => ret st
  | Some req =>
      confirm_decision "Falha ao reprovar a solicitação."
        databaseService.reprovado (Some justification) onStatusUpdate req st
        (fun s => mkPageState (requests s) (pageError s) (isUpdating s)
                    (requestToApprove s) None)
  end.

End Handlers.
End AprovarComprasHandlers.

Module SetorComprasHandlers.

Record PageState : Type := mkPageState {
  requests : list jsobj;
  pageError : option string;
}.

(** [{ ...req, status: 'comprado', purchasedAt: now, ...purchaseData }] *)
Definition bought (req purchaseData : jsobj) (t : string) : jsobj :=
  spread (<[ "purchasedAt" := JStr t ]> (<[ "status" := JStr "comprado" ]> req))
         purchaseData.

(** [handleConfirmPurchase]: the state it leaves, and the error it
    rethrows when the confirmation failed. *)
Definition handleConfirmPurchase (onPurchaseConfirmed : M unit)
    (id : string) (purchaseData : jsobj) (st : PageState)
    : M (PageState * option exn) :=
  written <-
    try_catch
      (databaseService.confirmPurchase id purchaseData ;;; ret None)
      (fun err => ret (Some err)) ;;
  match written with
  | Some err => ret (mkPageState (requests st) (Some "Falha ao confirmar a compra."), Some err)
  | None =>
      t <- now ;;
      let updated :=
        (fun req : jsobj =>
           if str_is (get req "id") id then bought req purchaseData t else req)
          <$> requests st in
      try_catch
        (match List.find (fun req => str_is (get req "id") id) (requests st) with
         | Some confirmedRequest =>
             notificationService.sendPurchaseTransitEmail
               (<[ "id" := JStr id ]> confirmedRequest) purchaseData
         | None => ret tt
         end ;;;
         onPurchaseConfirmed ;;;
         ret (mkPageState updated (pageError st), None))
        (fun err =>
           ret (mkPageState updated (Some "Falha ao confirmar a compra."), Some err))
  end.

End SetorComprasHandlers.

(* ===================================================================== *)
(** ** DashboardsPage: the chart *)
(* ===================================================================== *)

Module DashboardsChart.

(** [formattedChartData]: one bar per key of [spendingByUnit], which are
    the six units in the order written, and a last bar for the spending
    without a unit when it is positive. *)
Definition chartData (a : DashboardsPage.Acc) : list (string * Q) :=
  let formattedChartData :=
    (fun unitName =>
       (unitName, default 0%Q (DashboardsPage.spendingByUnit a !! unitName)))
      <$> DashboardsPage.units in
  if negb (Qle_bool (DashboardsPage.unassignedSpending a) 0)
  then (formattedChartData
          ++ [ ("Não Informada", DashboardsPage.unassignedSpending a) ])%list
  else formattedChartData.

End DashboardsChart.

(* ===================================================================== *)
(** * Properties *)
(* ===================================================================== *)

(** ** The response script and the log *)

(** Whether the next response is [ok]. *)
Definition next_response (w : World) : bool := hd true (net w).

(** Every response to come is [ok]. *)
Definition all_ok (w : World) : Prop := Forall (eq true) (net w).

(** The world once a request has been issued and answered, stores aside. *)
Definition after_call (c : call) (w : World) : World := (next_ok (log c w)).2.

Lemma next_ok_log c w : next_ok (log c w) = (next_response w, after_call c w).
Proof.
  unfold after_call, next_response, next_ok, log. simpl.
  destruct (net w); reflexivity.
Qed.

Lemma after_call_compras c w : compras (after_call c w) = compras w.
Proof. unfold after_call, next_ok, log. simpl. destruct (net w); reflexivity. Qed.

Lemma after_call_invoices c w : invoices (after_call c w) = invoices w.
Proof. unfold after_call, next_ok, log. simpl. destruct (net w); reflexivity. Qed.

Lemma after_call_clock c w : clock (after_call c w) = clock w.
Proof. unfold after_call, next_ok, log. simpl. destruct (net w); reflexivity. Qed.

Lemma after_call_fsMerge c w : fsMerge (after_call c w) = fsMerge w.
Proof. unfold after_call, next_ok, log. simpl. destruct (net w); reflexivity. Qed.

Lemma after_call_sent c w : sent (after_call c w) = (sent w ++ [c])%list.
Proof. unfold after_call, next_ok, log. simpl. destruct (net w); reflexivity. Qed.

Lemma after_call_net c w : net (after_call c w) = tl (net w).
Proof. unfold after_call, next_ok, log. simpl. destruct (net w); reflexivity. Qed.

Lemma all_ok_next w : all_ok w -> next_response w = true.
Proof.
  unfold all_ok, next_response. destruct (net w) as [|b n]; [reflexivity|].
  intros H. inversion H; subst. reflexivity.
Qed.

Lemma all_ok_after_call c w : all_ok w -> all_ok (after_call c w).
Proof.
  unfold all_ok. rewrite after_call_net.
  destruct (net w) as [|b n]; simpl; [constructor|].
  intros H. inversion H; assumption.
Qed.

Lemma all_ok_set_compras m w : all_ok w -> all_ok (set_compras m w).
Proof. exact (fun H => H). Qed.

Lemma all_ok_set_invoices m w : all_ok w -> all_ok (set_invoices m w).
Proof. exact (fun H => H). Qed.

Lemma all_ok_log c w : all_ok w -> all_ok (log c w).
Proof. exact (fun H => H). Qed.

(** ** What a [PATCH] of a document does *)

(** The document at [id], empty when there is none. *)
Definition doc_at (w : World) (id : string) : jsobj := default ∅ (compras w !! id).

Definition patched (id : string) (body : jsobj) (w : World) : World :=
  set_compras (<[id := spread (doc_at w id) body]> (compras w))
              (after_call (PatchCompra id body) w).

Lemma fetch_patch_compra_run id body w :
  fetch_patch_compra id body w =
    if next_response w
    then (Ok (mkResponse true body), patched id body w)
    else (Ok (mkResponse false ∅), after_call (PatchCompra id body) w).
Proof.
  unfold fetch_patch_compra, patched, doc_at.
  rewrite next_ok_log, after_call_compras. reflexivity.
Qed.

Lemma doc_at_patched id body w :
  doc_at (patched id body w) id = body ∪ doc_at w id.
Proof. unfold doc_at at 1, patched. simpl. by rewrite lookup_insert_eq. Qed.


Lemma updatePurchaseRequestStatus_run id status justification w :
  databaseService.updatePurchaseRequestStatus id status justification w =
    let payload := databaseService.status_payload status justification (clock w) in
    if next_response w
    then (Ok payload, patched id payload w)
    else (Throw (Error "Falha ao atualizar o status da solicitação."),
          after_call (PatchCompra id payload) w).
Proof.
  unfold databaseService.updatePurchaseRequestStatus, bind, now. simpl.
  rewrite fetch_patch_compra_run. destruct (next_response w); reflexivity.
Qed.

Lemma confirmPurchase_run id purchaseData w :
  databaseService.confirmPurchase id purchaseData w =
    let payload := databaseService.purchase_payload purchaseData (clock w) in
    if next_response w
    then (Ok payload, patched id payload w)
    else (Throw (Error "Falha ao confirmar a compra."),
          after_call (PatchCompra id payload) w).
Proof.
  unfold databaseService.confirmPurchase, bind, now. simpl.
  rewrite fetch_patch_compra_run. destruct (next_response w); reflexivity.
Qed.

(** ** The lifecycle commands, as the pages issue them *)

(** The approval page calls [updatePurchaseRequestStatus(id, 'aprovado')]
    and [updatePurchaseRequestStatus(id, 'reprovado', justification)], the
    purchasing page [confirmPurchase(id, purchaseData)]. The actor is the
    user signed in to the [App]; no call of the gateway takes it. *)
Inductive command : Type :=
  | Approve (id : string)
  | Reject (id : string) (justification : option string)
  | ConfirmPurchase (id : string) (fulfillmentData : jsobj).

Definition target (c : command) : string :=
  match c with
  | Approve id | Reject id _ | ConfirmPurchase id _ => id
  end.

Definition perform (actor : User) (c : command) : M jsobj :=
  match c with
  | Approve id =>
      databaseService.updatePurchaseRequestStatus id databaseService.aprovado None
  | Reject id justification =>
      databaseService.updatePurchaseRequestStatus id databaseService.reprovado
        justification
  | ConfirmPurchase id fulfillmentData =>
      databaseService.confirmPurchase id fulfillmentData
  end.

(** The body of the [PATCH] a command sends at time [t]. *)
Definition payload_of (c : command) (t : string) : jsobj :=
  match c with
  | Approve _ => databaseService.status_payload databaseService.aprovado None t
  | Reject _ j => databaseService.status_payload databaseService.reprovado j t
  | ConfirmPurchase _ d => databaseService.purchase_payload d t
  end.

Definition failure_of (c : command) : string :=
  match c with
  | Approve _ | Reject _ _ => "Falha ao atualizar o status da solicitação."
  | ConfirmPurchase _ _ => "Falha ao confirmar a compra."
  end.

Lemma perform_run actor c w :
  perform actor c w =
    let payload := payload_of c (clock w) in
    if next_response w
    then (Ok payload, patched (target c) payload w)
    else (Throw (Error (failure_of c)),
          after_call (PatchCompra (target c) payload) w).
Proof.
  destruct c; simpl.
  - apply updatePurchaseRequestStatus_run.
  - apply updatePurchaseRequestStatus_run.
  - apply confirmPurchase_run.
Qed.



Lemma purchase_payload_lookup d t k :
  databaseService.purchase_payload d t !! k =
    match d !! k with
    | Some v => Some v
    | None =>
        (<[ "purchasedAt" := JStr t ]> ({[ "status" := JStr "comprado" ]} : jsobj)) !! k
    end.
Proof.
  unfold databaseService.purchase_payload, spread.
  rewrite lookup_union.
  destruct (d !! k) as [v|]; destruct (_ !! k) as [x|]; reflexivity.
Qed.

Lemma get_union_l (a b : jsobj) k v :
  a !! k = Some v -> get (a ∪ b) k = Val v.
Proof. intros H. unfold get. by rewrite (lookup_union_Some_l a b k v H). Qed.

Lemma get_union_r (a b : jsobj) k :
  a !! k = None -> get (a ∪ b) k = get b k.
Proof. intros H. unfold get. by rewrite (lookup_union_r a b k H). Qed.

(** ** Sample data for the closed instances *)

Definition sample_user : User :=
  mkUser "ana@escola,com" "ana@escola.com" "Ana" true (Some user).

Definition sample_request (status : string) : jsobj :=
  list_to_map
    [ ("nome", JStr "Ana"); ("unidade", JStr "Unidade 2");
      ("tipo", JStr "produto"); ("nomeProduto", JStr "Projetor");
      ("quantidadeProduto", JStr "1"); ("status", JStr status);
      ("createdAt", JStr "2024-05-01T09:00:00.000Z") ].

Definition sample_world (requests : gmap string jsobj) : World :=
  mkWorld requests ∅ "2024-05-02T10:00:00.000Z" [] false [].

Definition sample_fulfillment : jsobj :=
  list_to_map
    [ ("valorProduto", JNum (123456 # 100));
      ("linkCotacao1", JStr "https://loja.example/projetor");
      ("previsaoChegada", JStr "2024-05-20") ].

(** ** C1: the transitions do not look at the current status *)



(** ** C2: the role gate is the sidebar, not the gateway *)

Lemma visibleNavItems_user u :
  role_or_user u = user -> App.visibleNavItems u = [App.formulario].
Proof. intros H. unfold App.visibleNavItems. rewrite H. reflexivity. Qed.

Lemma defaultView_user u :
  role_or_user u = user -> App.defaultView u = App.formulario.
Proof. intros H. unfold App.defaultView. rewrite H. reflexivity. Qed.

Lemma click_user u v v' :
  role_or_user u = user -> App.click u v v' -> v' = App.formulario.
Proof.
  intros Hrole Hclick. destruct Hclick as [v|v item Hin|v Hadmin].
  - by apply defaultView_user.
  - rewrite (visibleNavItems_user u Hrole) in Hin.
    by apply list_elem_of_singleton in Hin.
  - unfold role_or_user in Hrole. rewrite Hadmin in Hrole. discriminate.
Qed.

Lemma reachable_user u v :
  role_or_user u = user -> App.reachable u v -> v = App.formulario.
Proof.
  intros Hrole Hreach. induction Hreach as [|v v' _ _ Hclick].
  - reflexivity.
  - by eapply click_user.
Qed.

(** C2, as stated, fails: issued for an actor whose role is ['user'],
    Approve and ConfirmPurchase succeed and rewrite the stored request. *)
Lemma C2_counterexample :
  let w := sample_world {[ "r1" := sample_request "pendente";
                           "r2" := sample_request "aprovado" ]} in
  let a := perform sample_user (Approve "r1") w in
  let c := perform sample_user (ConfirmPurchase "r2" sample_fulfillment) w in
  role sample_user = Some user
  /\ (exists body, a.1 = Ok body)
  /\ get (doc_at a.2 "r1") "status" = Val (JStr "aprovado")
  /\ (exists body, c.1 = Ok body)
  /\ get (doc_at c.2 "r2") "status" = Val (JStr "comprado").
Proof.
  cbv zeta. repeat split; try (vm_compute; reflexivity);
    eexists; vm_compute; reflexivity.
Qed.

(** C2, amended: the gateway takes no actor and checks no role, so a
    command issued for an actor whose role is ['user'] (or absent) succeeds
    whenever the store accepts the write. The gate is the navigation: the
    only view such a user reaches is [formulario], which renders the
    purchase form, never the approval or the purchasing page that issue
    the commands. *)
Theorem C2_role_gate_is_the_navigation
    (actor : User) (Hrole : role_or_user actor = user) :
  (forall v, App.reachable actor v ->
     v = App.formulario /\ App.renderContent v = App.PurchaseFormPage)
  /\ (forall c w, next_response w = true ->
        (perform actor c w).1 = Ok (payload_of c (clock w))
        /\ doc_at (perform actor c w).2 (target c)
           = payload_of c (clock w) ∪ doc_at w (target c)).
Proof.
  split.
  - intros v Hreach. rewrite (reachable_user actor v Hrole Hreach). by split.
  - intros c w Hok. rewrite perform_run. cbv zeta. rewrite Hok. simpl.
    by rewrite doc_at_patched.
Qed.

Lemma C2_role_gate_witness :
  (forall v, App.reachable sample_user v ->
     v = App.formulario /\ App.renderContent v = App.PurchaseFormPage)
  /\ (forall c w, next_response w = true ->
        (perform sample_user c w).1 = Ok (payload_of c (clock w))
        /\ doc_at (perform sample_user c w).2 (target c)
           = payload_of c (clock w) ∪ doc_at w (target c)).
Proof. apply (C2_role_gate_is_the_navigation sample_user). reflexivity. Defined.

(** ** C3: what each transition writes, and what it leaves *)














(** ** C9: the fulfillment data is spread last *)

(** C9: [confirmPurchase] spreads the caller's data over [status:
    'comprado'] and [purchasedAt: now]. When the store accepts the write,
    a data object with neither key leaves the stored status ['comprado']
    and [purchasedAt] the current time; a data object holding either key
    overrides the engine's value with its own. *)
Theorem C9_fulfillment_data_overrides_engine_fields
    (id : string) (purchaseData : jsobj) (w : World)
    (Hok : next_response w = true) :
  let r := databaseService.confirmPurchase id purchaseData w in
  let stored := doc_at r.2 id in
  r.1 = Ok (purchaseData ∪ list_to_map [ ("status", JStr "comprado");
                                         ("purchasedAt", JStr (clock w)) ])
  /\ (purchaseData !! "status" = None -> purchaseData !! "purchasedAt" = None ->
        get stored "status" = Val (JStr "comprado")
        /\ get stored "purchasedAt" = Val (JStr (clock w)))
  /\ (forall v, purchaseData !! "status" = Some v -> get stored "status" = Val v)
  /\ (forall v, purchaseData !! "purchasedAt" = Some v ->
        get stored "purchasedAt" = Val v).
Proof.
  cbv zeta. rewrite confirmPurchase_run. cbv zeta. rewrite Hok. simpl.
  rewrite doc_at_patched.
  assert (Hpay : databaseService.purchase_payload purchaseData (clock w)
                 = purchaseData ∪ list_to_map [ ("status", JStr "comprado");
                                                ("purchasedAt", JStr (clock w)) ]).
  { unfold databaseService.purchase_payload, spread. reflexivity. }
  split; [by rewrite Hpay|]. split; [|split].
  - intros Hs Hp. split; apply get_union_l; rewrite purchase_payload_lookup.
    + by rewrite Hs.
    + by rewrite Hp.
  - intros v Hv. apply get_union_l. by rewrite purchase_payload_lookup, Hv.
  - intros v Hv. apply get_union_l. by rewrite purchase_payload_lookup, Hv.
Qed.

Lemma C9_override_witness :
  let purchaseData : jsobj :=
    <[ "status" := JStr "pendente" ]> sample_fulfillment in
  let w := sample_world {[ "r2" := sample_request "aprovado" ]} in
  let r := databaseService.confirmPurchase "r2" purchaseData w in
  let stored := doc_at r.2 "r2" in
  r.1 = Ok (purchaseData ∪ list_to_map [ ("status", JStr "comprado");
                                         ("purchasedAt", JStr (clock w)) ])
  /\ (purchaseData !! "status" = None -> purchaseData !! "purchasedAt" = None ->
        get stored "status" = Val (JStr "comprado")
        /\ get stored "purchasedAt" = Val (JStr (clock w)))
  /\ (forall v, purchaseData !! "status" = Some v -> get stored "status" = Val v)
  /\ (forall v, purchaseData !! "purchasedAt" = Some v ->
        get stored "purchasedAt" = Val v).
Proof.
  apply (C9_fulfillment_data_overrides_engine_fields "r2"
           (<[ "status" := JStr "pendente" ]> sample_fulfillment)
           (sample_world {[ "r2" := sample_request "aprovado" ]})).
  reflexivity.
Defined.

(** The two sides of C9 on the sample request: with plain fulfillment data
    the stored status is ['comprado']; with a [status] entry in the data it
    is that entry. *)
Example confirmPurchase_plain_and_overridden :
  let w := sample_world {[ "r2" := sample_request "aprovado" ]} in
  get (doc_at (databaseService.confirmPurchase "r2" sample_fulfillment w).2 "r2")
      "status" = Val (JStr "comprado")
  /\ get (doc_at (databaseService.confirmPurchase "r2"
                    (<[ "status" := JStr "pendente" ]> sample_fulfillment) w).2 "r2")
         "status" = Val (JStr "pendente").
Proof. split; vm_compute; reflexivity. Qed.

(** ** C4: the validation of the purchase form *)

Import PurchaseForm.

(** The required-field constraints as the specification lists them: the
    label of each, and whether the draft violates it. *)
Definition constraints (d : FormData) : list (string * bool) :=
  [ ("Unidade", is_empty (unidade d));
    ("Grau de urgência", is_empty (urgencia d));
    ("Tipo", is_empty (tipo d));
    ("Data e Hora do Prazo",
       String.eqb (prazo d) "sim" && is_empty (prazoDataHora d));
    ("Descrição do serviço",
       String.eqb (tipo d) "servico" && is_empty (descricaoServico d));
    ("Nome de quem quer indicar",
       String.eqb (tipo d) "servico"
       && (String.eqb (querIndicar d) "sim" && is_empty (nomeIndicado d)));
    ("Produto (nome)",
       String.eqb (tipo d) "produto" && is_empty (nomeProduto d));
    ("Quantidade",
       String.eqb (tipo d) "produto" && is_empty (quantidadeProduto d));
    ("Link do produto",
       String.eqb (tipo d) "produto"
       && (String.eqb (querLink d) "sim" && is_empty (linkProduto d))) ].

(** The labels of the violated constraints. *)
Definition missing (d : FormData) : list string :=
  fst <$> List.filter snd (constraints d).

(** [msg] names [label]: the label occurs in the message. *)
Definition names (msg label : string) : Prop :=
  exists before after, msg = before ++ label ++ after.

Lemma string_app_assoc (a b c : string) : (a ++ b) ++ c = a ++ b ++ c.
Proof.
  induction a as [|x a IH]; [reflexivity|].
  change (String x ((a ++ b) ++ c) = String x (a ++ b ++ c)). by rewrite IH.
Qed.

Lemma string_app_nil_r (a : string) : a ++ "" = a.
Proof.
  induction a as [|x a IH]; [reflexivity|].
  change (String x (a ++ "") = String x a). by rewrite IH.
Qed.

Lemma concat_names sep (label : string) (labels : list string) :
  label ∈ labels -> names (String.concat sep labels) label.
Proof.
  induction labels as [|l [|l' ls] IH]; intros Hin.
  - by apply elem_of_nil in Hin.
  - apply list_elem_of_singleton in Hin as ->.
    exists "", "". simpl. by rewrite string_app_nil_r.
  - apply elem_of_cons in Hin as [->|Hin].
    + exists "", (sep ++ String.concat sep (l' :: ls)). reflexivity.
    + destruct (IH Hin) as (before & after & Heq).
      exists (l ++ sep ++ before), after.
      change (String.concat sep (l :: l' :: ls))
        with (l ++ sep ++ String.concat sep (l' :: ls)).
      rewrite Heq. by rewrite !string_app_assoc.
Qed.

Lemma validation_message_names (label : string) (errors : list string) :
  label ∈ errors -> names (validation_message errors) label.
Proof.
  intros Hin. destruct (concat_names ", " label errors Hin) as (b & a & Heq).
  unfold validation_message. rewrite Heq.
  exists ("Por favor, preencha os campos obrigatórios: " ++ b), (a ++ ".").
  by rewrite !string_app_assoc.
Qed.

Lemma validate_missing d : validate d = missing d.
Proof.
  unfold validate, missing, constraints, push_if.
  destruct (is_empty (unidade d)), (is_empty (urgencia d)), (is_empty (tipo d)),
    (String.eqb (prazo d) "sim"), (is_empty (prazoDataHora d)),
    (String.eqb (tipo d) "servico"), (is_empty (descricaoServico d)),
    (String.eqb (querIndicar d) "sim"), (is_empty (nomeIndicado d)),
    (String.eqb (tipo d) "produto"), (is_empty (nomeProduto d)),
    (is_empty (quantidadeProduto d)),
    (String.eqb (querLink d) "sim"), (is_empty (linkProduto d));
    reflexivity.
Qed.

Lemma handleSubmit_invalid u cb st w :
  validate (formData st) ≠ [] ->
  handleSubmit u cb st w =
    (Ok (mkState (formData st) (isSubmitting st)
           (Some (mkSubmitStatus (validation_message (validate (formData st)))
                    error))), w).
Proof.
  intros Hne. unfold handleSubmit.
  destruct (validate (formData st)) as [|e es]; [done|]. reflexivity.
Qed.

(** The key the store generates for the next [POST]. *)
Definition new_key (w : World) : string := fresh (dom (compras w)).

Lemma new_key_fresh w : compras w !! new_key w = None.
Proof. apply not_elem_of_dom. unfold new_key. apply is_fresh. Qed.

Definition posted (body : jsobj) (w : World) : World :=
  set_compras (<[new_key w := body]> (compras w)) (after_call (PostCompras body) w).

Lemma addPurchaseRequest_run body w :
  databaseService.addPurchaseRequest body w =
    if next_response w then (Ok (new_key w), posted body w)
    else (Throw (Error "Falha ao enviar a solicitação de compra."),
          after_call (PostCompras body) w).
Proof.
  unfold databaseService.addPurchaseRequest, bind, fetch_post_compras, posted, new_key.
  rewrite next_ok_log, after_call_compras.
  destruct (next_response w); reflexivity.
Qed.

(** The world once a valid draft has been stored and the two
    notifications started. *)
Definition submitted (d : FormData) (u : User) (w : World) : World :=
  let body := requestData d u (clock w) in
  let notified := <[ "id" := JStr (new_key w) ]> body in
  log (NotifyApprovers notified)
    (log (PostRelay (<[ "notificationType" := JStr "pedido_recebido" ]> notified))
       (posted body w)).

Definition success_state (d : FormData) : State :=
  mkState (reset_form d) false
    (Some (mkSubmitStatus
             "Solicitação enviada com sucesso! Um e-mail de confirmação será enviado em breve."
             success)).

(** A callback that returns normally, leaves the requests alone and
    consumes only the responses it asks for; [fetchCounts] is one. *)
Definition reads_only (cb : option (M unit)) : Prop :=
  match cb with
  | None => True
  | Some f => forall w, (f w).1 = Ok tt
                        /\ compras (f w).2 = compras w
                        /\ (all_ok w -> all_ok (f w).2)
  end.

Definition after_callback (cb : option (M unit)) (w : World) : World :=
  match cb with
  | None => w
  | Some f => (f w).2
  end.

Lemma handleSubmit_valid u cb st w :
  validate (formData st) = [] -> next_response w = true -> reads_only cb ->
  handleSubmit u cb st w =
    (Ok (success_state (formData st)),
     after_callback cb (submitted (formData st) u w)).
Proof.
  intros Hvalid Hok Hcb. unfold handleSubmit. rewrite Hvalid. simpl.
  unfold bind, try_catch, now. simpl.
  rewrite addPurchaseRequest_run, Hok.
  unfold notificationService.sendPurchaseConfirmationEmail,
    notificationService.notifyApproversAboutRequest, sendNotificationRequest.
  fold (submitted (formData st) u w).
  destruct cb as [f|]; simpl; [|reflexivity].
  destruct (Hcb (submitted (formData st) u w)) as (Hr & _ & _).
  destruct (f (submitted (formData st) u w)) as [r w2] eqn:E. simpl in *.
  subst r. reflexivity.
Qed.

Lemma submitted_compras d u w :
  compras (submitted d u w)
  = <[new_key w := requestData d u (clock w)]> (compras w).
Proof. reflexivity. Qed.

Lemma after_callback_compras cb w :
  reads_only cb -> compras (after_callback cb w) = compras w.
Proof.
  destruct cb as [f|]; simpl; [|reflexivity]. intros H. apply (H w).
Qed.

Lemma requestData_status d u t :
  get (requestData d u t) "status" = Val (JStr "pendente").
Proof. reflexivity. Qed.

Lemma is_empty_false s : s ≠ "" -> is_empty s = false.
Proof. by destruct s. Qed.

Lemma is_empty_true s : is_empty s = true <-> s = "".
Proof. by destruct s. Qed.

Lemma requested_and_given (flag value : string) :
  (flag = "sim" -> value ≠ "") -> String.eqb flag "sim" && is_empty value = false.
Proof.
  intros H. destruct (String.eqb_spec flag "sim") as [->|_]; [|reflexivity].
  simpl. apply is_empty_false. by apply H.
Qed.

Lemma violated_in_missing d label :
  (label, true) ∈ constraints d -> label ∈ missing d.
Proof.
  intros H. unfold missing. apply list_elem_of_fmap.
  exists (label, true). split; [reflexivity|].
  apply list_elem_of_In, filter_In. split; [by apply list_elem_of_In|reflexivity].
Qed.

(** A ['produto'] draft with unit, urgency, type, product name and
    quantity present, whose deadline and link are not asked for or
    given. *)
Definition produto_ready (d : FormData) : Prop :=
  unidade d ≠ "" /\ urgencia d ≠ "" /\ tipo d = "produto"
  /\ nomeProduto d ≠ "" /\ quantidadeProduto d ≠ ""
  /\ (prazo d = "sim" -> prazoDataHora d ≠ "")
  /\ (querLink d = "sim" -> linkProduto d ≠ "").

Lemma produto_ready_valid d : produto_ready d -> validate d = [].
Proof.
  intros (Hu & Hg & Ht & Hn & Hq & Hp & Hl).
  rewrite validate_missing. unfold missing, constraints.
  rewrite Ht. simpl.
  rewrite (is_empty_false _ Hu), (is_empty_false _ Hg),
    (is_empty_false _ Hn), (is_empty_false _ Hq),
    (requested_and_given _ _ Hp), (requested_and_given _ _ Hl).
  reflexivity.
Qed.

(** C4: the form's validation is aggregated. The errors are the labels of
    all violated required-field constraints, in order; each is named in
    the one message shown; a draft with any violation is answered with
    that message and no request is issued (the world is unchanged). A
    ['servico'] draft asking for a referral without a name is told ['Nome
    de quem quer indicar']; a ['produto'] draft with unit, urgency, type,
    name and quantity present is stored under a new key with status
    ['pendente']. *)
Theorem C4_submit_validation_is_aggregated
    (u : User) (cb : option (M unit)) (st : State) (w : World) :
  let d := formData st in
  validate d = missing d
  /\ (forall label, label ∈ validate d ->
        names (validation_message (validate d)) label)
  /\ (validate d ≠ [] ->
        handleSubmit u cb st w =
          (Ok (mkState d (isSubmitting st)
                 (Some (mkSubmitStatus (validation_message (validate d)) error))),
           w))
  /\ (tipo d = "servico" -> querIndicar d = "sim" -> nomeIndicado d = "" ->
        "Nome de quem quer indicar" ∈ validate d)
  /\ (produto_ready d -> reads_only cb -> next_response w = true ->
        validate d = []
        /\ (handleSubmit u cb st w).1 = Ok (success_state d)
        /\ compras w !! new_key w = None
        /\ (exists stored,
              compras (handleSubmit u cb st w).2 !! new_key w = Some stored
              /\ get stored "status" = Val (JStr "pendente"))).
Proof.
  cbv zeta. split; [apply validate_missing|].
  split; [intros label; apply validation_message_names|].
  split; [apply handleSubmit_invalid|].
  split.
  - intros Ht Hq Hn. rewrite validate_missing. apply violated_in_missing.
    unfold constraints. rewrite Ht, Hq, Hn. simpl.
    do 5 apply list_elem_of_further. apply list_elem_of_here.
  - intros Hready Hcb Hok.
    pose proof (produto_ready_valid _ Hready) as Hvalid.
    rewrite (handleSubmit_valid u cb st w Hvalid Hok Hcb). simpl.
    split; [assumption|]. split; [reflexivity|].
    split; [apply new_key_fresh|].
    exists (requestData (formData st) u (clock w)). split; [|reflexivity].
    rewrite (after_callback_compras cb _ Hcb), submitted_compras.
    apply lookup_insert_eq.
Qed.

(** ** C5: what is submitted is what the listing returns *)

Lemma getPurchaseRequests_run w :
  databaseService.getPurchaseRequests w =
    if next_response w
    then (Ok (databaseService.with_id <$> map_to_list (compras w)),
          after_call GetCompras w)
    else (Throw (Error "Falha ao buscar as Solicitações de compra."),
          after_call GetCompras w).
Proof.
  unfold databaseService.getPurchaseRequests, bind, fetch_get_compras.
  rewrite next_ok_log, after_call_compras.
  destruct (next_response w); simpl; [|reflexivity].
  destruct (decide (compras w = ∅)) as [E|E]; simpl; [|reflexivity].
  rewrite E, map_to_list_empty. reflexivity.
Qed.

Lemma listed_of_stored w k (doc : jsobj) :
  compras w !! k = Some doc ->
  databaseService.with_id (k, doc)
    ∈ databaseService.with_id <$> map_to_list (compras w).
Proof.
  intros H. apply list_elem_of_fmap. exists (k, doc). split; [reflexivity|].
  by apply elem_of_map_to_list.
Qed.



Lemma all_ok_submitted d u w : all_ok w -> all_ok (submitted d u w).
Proof.
  intros H. unfold submitted, posted.
  do 2 apply all_ok_log. apply all_ok_set_compras. by apply all_ok_after_call.
Qed.

Lemma all_ok_after_callback cb w :
  reads_only cb -> all_ok w -> all_ok (after_callback cb w).
Proof.
  destruct cb as [f|]; simpl; [|done]. intros H Hok. by apply (H w).
Qed.


Definition sample_draft : FormData :=
  mkFormData "Ana" "ana@escola.com" "Unidade 2" "nao" "" "Alto" "produto"
             "" "nao" "" "Projetor" "1" "nao" "".

Definition sample_form : State := mkState sample_draft false None.


(** The two drafts of C4, run. *)
Example submit_servico_without_referral_name :
  let d := mkFormData "Ana" "ana@escola.com" "" "nao" "" "Alto" "servico"
                      "Pintura" "sim" "" "" "" "nao" "" in
  let w := sample_world ∅ in
  handleSubmit sample_user None (mkState d false None) w
  = (Ok (mkState d false
           (Some (mkSubmitStatus
                    "Por favor, preencha os campos obrigatórios: Unidade, Nome de quem quer indicar."
                    error))), w).
Proof. reflexivity. Qed.

Example submit_produto_complete :
  let w := sample_world ∅ in
  let r := handleSubmit sample_user None sample_form w in
  r.1 = Ok (success_state sample_draft)
  /\ compras w !! new_key w = None
  /\ get (doc_at r.2 (new_key w)) "status" = Val (JStr "pendente").
Proof. repeat split; vm_compute; reflexivity. Qed.

(** ** C6: the sidebar counts *)

(** The requests of a list whose stored status is [s]. *)
Definition with_status (s : string) (requests : list jsobj) : list jsobj :=
  filter (fun r : jsobj => r !! "status" = Some (JStr s)) requests.

Lemma str_is_status (r : jsobj) s :
  str_is (get r "status") s = true <-> r !! "status" = Some (JStr s).
Proof.
  unfold str_is, get. destruct (r !! "status") as [[s'| |]|]; try (split; done).
  rewrite String.eqb_eq. split; congruence.
Qed.

Lemma count_with_status s requests :
  length (List.filter (fun r => str_is (get r "status") s) requests)
  = length (with_status s requests).
Proof.
  unfold with_status. induction requests as [|r rs IH]; [reflexivity|].
  simpl. rewrite filter_cons.
  destruct (str_is (get r "status") s) eqn:E.
  - apply str_is_status in E. rewrite decide_True by done. simpl. by rewrite IH.
  - rewrite decide_False; [done|]. intros H. apply str_is_status in H. congruence.
Qed.

Lemma derivedCounts_app l1 l2 :
  App.derivedCounts (l1 ++ l2)
  = App.mkCounts
      (App.pendingApprovalsCount (App.derivedCounts l1)
       + App.pendingApprovalsCount (App.derivedCounts l2))
      (App.pendingPurchasesCount (App.derivedCounts l1)
       + App.pendingPurchasesCount (App.derivedCounts l2)).
Proof.
  unfold App.derivedCounts. simpl.
  by rewrite !List.filter_app, !length_app.
Qed.

Lemma derivedCounts_perm l1 l2 :
  l1 ≡ₚ l2 -> App.derivedCounts l1 = App.derivedCounts l2.
Proof.
  intros H. unfold App.derivedCounts. rewrite !count_with_status.
  unfold with_status. by rewrite H.
Qed.

(** Ten requests: 3 pendente, 2 aprovado, 1 reprovado, 4 comprado. *)
Definition fixed_input : list jsobj :=
  replicate 3 (sample_request "pendente") ++ replicate 2 (sample_request "aprovado")
  ++ replicate 1 (sample_request "reprovado") ++ replicate 4 (sample_request "comprado").

(** The stored requests whose status is [s]. *)
Definition stored_with_status (s : string) (m : gmap string jsobj)
    : gmap string jsobj :=
  filter (fun kv : string * jsobj => kv.2 !! "status" = Some (JStr s)) m.

Lemma with_id_status kv :
  databaseService.with_id kv !! "status" = kv.2 !! "status".
Proof.
  unfold databaseService.with_id, spread. rewrite lookup_union.
  rewrite lookup_singleton_ne by done. by destruct (kv.2 !! "status").
Qed.

Lemma count_listing s (m : gmap string jsobj) :
  length (with_status s (databaseService.with_id <$> map_to_list m))
  = size (stored_with_status s m).
Proof.
  unfold with_status, stored_with_status.
  induction m as [|k doc m Hk Hfirst IH] using map_first_key_ind.
  - by rewrite map_to_list_empty, map_filter_empty, map_size_empty.
  - rewrite map_to_list_insert_first_key by done. simpl.
    rewrite filter_cons.
    destruct (decide (databaseService.with_id (k, doc) !! "status" = Some (JStr s)))
      as [Hs|Hs]; rewrite with_id_status in Hs; simpl in Hs.
    + rewrite map_filter_insert_True by done.
      rewrite map_size_insert_None by (by apply map_lookup_filter_None_2; left).
      simpl. f_equal. exact IH.
    + rewrite map_filter_insert_False by done.
      rewrite delete_id by done. exact IH.
Qed.

Lemma fetchCounts_run old w :
  App.fetchCounts old w =
    if next_response w
    then (Ok (App.derivedCounts (databaseService.with_id <$> map_to_list (compras w))),
          after_call GetCompras w)
    else (Ok old, after_call GetCompras w).
Proof.
  unfold App.fetchCounts, try_catch, bind.
  rewrite getPurchaseRequests_run. destruct (next_response w); reflexivity.
Qed.

(** C6: the two counts are projections of the list of requests: the
    number of requests whose status is ['pendente'] and the number whose
    status is ['aprovado']; any arrangement of 3 pendente, 2 aprovado, 1
    reprovado and 4 comprado requests gives 3 and 2. [fetchCounts]
    recomputes them from the whole stored collection, which it leaves
    unchanged. *)
Theorem C6_derived_counts_are_projections (requests : list jsobj) (w : World) :
  App.pendingApprovalsCount (App.derivedCounts requests)
    = length (with_status "pendente" requests)
  /\ App.pendingPurchasesCount (App.derivedCounts requests)
    = length (with_status "aprovado" requests)
  /\ App.derivedCounts fixed_input = App.mkCounts 3 2
  /\ (requests ≡ₚ fixed_input -> App.derivedCounts requests = App.mkCounts 3 2)
  /\ (forall old,
        (App.fetchCounts old w).1
        = Ok (if next_response w
              then App.mkCounts (size (stored_with_status "pendente" (compras w)))
                                (size (stored_with_status "aprovado" (compras w)))
              else old)
        /\ compras (App.fetchCounts old w).2 = compras w).
Proof.
  split; [apply count_with_status|].
  split; [apply count_with_status|].
  split; [reflexivity|].
  split; [intros H; by rewrite (derivedCounts_perm _ _ H)|].
  intros old. rewrite fetchCounts_run.
  destruct (next_response w); simpl; rewrite after_call_compras; [|done].
  split; [|done]. unfold App.derivedCounts.
  by rewrite !count_with_status, !count_listing.
Qed.

(** ** C7: currency normalization *)

Lemma filter_chars_keeps keep s c :
  In c (list_ascii_of_string (filter_chars keep s)) -> keep c = true.
Proof.
  induction s as [|x s IH]; simpl; [done|].
  destruct (keep x) eqn:E; simpl; [|exact IH].
  intros [<-|H]; [assumption|by apply IH].
Qed.

Lemma filter_chars_sub keep s c :
  In c (list_ascii_of_string (filter_chars keep s)) ->
  In c (list_ascii_of_string s).
Proof.
  induction s as [|x s IH]; simpl; [done|].
  destruct (keep x); simpl; [intros [H|H]; auto|auto].
Qed.

Lemma replace_first_chars a b s c :
  In c (list_ascii_of_string (replace_first a b s)) ->
  c = b \/ In c (list_ascii_of_string s).
Proof.
  induction s as [|x s IH]; simpl; [done|].
  destruct (Ascii.eqb x a); simpl.
  - intros [<-|H]; auto.
  - intros [<-|H]; [auto|]. destruct (IH H); auto.
Qed.

(** What [parseFloat] is given holds digits, commas, points and minus
    signs only: no white space, no exponent, no [Infinity]. *)
Lemma clean_currency_chars value c :
  In c (list_ascii_of_string (clean_currency value)) -> is_money_char c = true.
Proof.
  unfold clean_currency. intros H.
  apply replace_first_chars in H as [->|H]; [reflexivity|].
  apply filter_chars_sub in H. by apply filter_chars_keeps in H.
Qed.

Import DashboardsPage.

Section Spend.

Variable formatBRL : Q -> string.
Variable numberToString : Q -> string.








End Spend.


(** A stored request bought without a value, next to one bought for
    ["R$ 1.234,56"]: the total is 1234.56. *)
Example total_spent_skips_absent_values :
  let bought (valor : list (string * json)) : jsobj :=
    list_to_map (valor ++ [ ("status", JStr "comprado"); ("unidade", JStr "Unidade 2") ]) in
  totalSpent
    (calculateStats (fun _ => "")
       [ bought [ ("valorProduto", JStr "") ];
         bought [ ("valorProduto", JStr "R$ 1.234,56") ];
         bought [ ("valorServico", JStr "a combinar") ];
         bought [] ])
  = 1234.56%Q.
Proof. vm_compute. reflexivity. Qed.

(** ** C10: reading an invoice *)

(** A non-empty string field of a document of the attribute store. *)
Definition string_field (fields : fsdoc) (k : string) : option string :=
  match fields !! k with
  | Some (stringValue s) => if decide (s = "") then None else Some s
  | _ => None
  end.

(** The string held by a typed value, if it is a string. *)
Definition as_string (v : fsvalue) : option string :=
  match v with
  | stringValue s => Some s
  | _ => None
  end.

(** The entries of the [pages] array that are non-empty strings. *)
Definition usable_pages (fields : fsdoc) : list string :=
  match fields !! "pages" with
  | Some (arrayValue values) => filter (fun s => s ≠ "") (omap as_string values)
  | _ => []
  end.

(** A document [getInvoice] can serve: a [mimeType] string and either
    usable pages or the legacy [invoiceData] string (both strings
    non-empty). *)
Definition servable (fields : fsdoc) : Prop :=
  is_Some (string_field fields "mimeType")
  /\ (usable_pages fields ≠ [] \/ is_Some (string_field fields "invoiceData")).

(** What [getInvoice] answers for a document. *)
Definition read_invoice (fields : fsdoc) : result (list string * string) :=
  match string_field fields "mimeType" with
  | None => Throw (Error "Formato da nota fiscal inválido no banco de dados.")
  | Some mime =>
      match usable_pages fields, string_field fields "invoiceData" with
      | p :: ps, _ => Ok (p :: ps, mime)
      | [], Some data => Ok ([data], mime)
      | [], None => Throw (Error "Nenhuma página encontrada para esta nota fiscal.")
      end
  end.

Lemma nonempty_string_field fields k :
  databaseService.nonempty (databaseService.string_of (fields !! k))
  = bool_decide (is_Some (string_field fields k)).
Proof.
  unfold string_field.
  destruct (fields !! k) as [[s| |]|]; simpl; try reflexivity.
  destruct s; reflexivity.
Qed.

Lemma string_of_string_field fields k s :
  string_field fields k = Some s ->
  databaseService.string_of (fields !! k) = Some s.
Proof.
  unfold string_field. destruct (fields !! k) as [[s'| |]|]; try done.
  case_decide; [done|]. by intros [= ->].
Qed.

Lemma page_values_usable fields :
  default [] (databaseService.page_values fields) = usable_pages fields.
Proof.
  unfold databaseService.page_values, usable_pages.
  destruct (fields !! "pages") as [[| |values]|]; try reflexivity. simpl.
  induction values as [|v values IH]; [reflexivity|]. simpl.
  destruct v as [s| |]; simpl; try exact IH.
  rewrite filter_cons. destruct s; simpl.
  - exact IH.
  - f_equal. exact IH.
Qed.

Lemma page_values_nil fields :
  databaseService.page_values fields = None -> usable_pages fields = [].
Proof. intros H. by rewrite <- page_values_usable, H. Qed.

Lemma getInvoice_run id w :
  databaseService.getInvoice id w =
    (match invoices w !! id with
     | Some fields =>
         if next_response w then read_invoice fields
         else Throw (Error "Nota fiscal não encontrada.")
     | None => Throw (Error "Nota fiscal não encontrada.")
     end, after_call (GetInvoice id) w).
Proof.
  unfold databaseService.getInvoice, bind, fetch_get_invoice.
  rewrite next_ok_log, after_call_invoices.
  destruct (invoices w !! id) as [fields|]; [|reflexivity].
  destruct (next_response w); [|reflexivity]. simpl.
  unfold read_invoice. rewrite !nonempty_string_field.
  destruct (string_field fields "mimeType") as [mime|] eqn:Em.
  2:{ rewrite bool_decide_eq_false_2 by (by intros [? ?]). reflexivity. }
  rewrite bool_decide_eq_true_2 by eauto. simpl.
  rewrite (string_of_string_field _ _ _ Em). simpl.
  pose proof (page_values_usable fields) as Hp.
  destruct (databaseService.page_values fields) as [[|p ps]|]; simpl in Hp;
    rewrite <- Hp; try reflexivity;
    (destruct (string_field fields "invoiceData") as [data|] eqn:Ed;
     [ rewrite bool_decide_eq_true_2 by eauto;
       by rewrite (string_of_string_field _ _ _ Ed)
     | rewrite bool_decide_eq_false_2 by (by intros [? ?]); reflexivity ]).
Qed.

Lemma read_invoice_ok fields :
  (exists inv, read_invoice fields = Ok inv) <-> servable fields.
Proof.
  unfold read_invoice, servable.
  destruct (string_field fields "mimeType") as [mime|].
  - destruct (usable_pages fields) as [|p ps].
    + destruct (string_field fields "invoiceData") as [data|].
      * split; [intros _; split; eauto|eauto].
      * split; [intros [? [=]]|].
        intros [_ [H|[? [=]]]]. by destruct H.
    + split; [intros _; split; eauto|eauto].
  - split; [intros [? [=]]|intros [[? [=]] _]].
Qed.

(** C10: when the attribute store answers, [getInvoice] succeeds exactly
    for a stored document with a (non-empty) [mimeType] string and either
    pages left once the entries that are not non-empty strings are
    dropped, or a (non-empty) legacy [invoiceData] string. It returns the
    usable pages when there are some, else the legacy string as the one
    page; a missing document, a missing [mimeType] and a document without
    usable pages or legacy data each raise an error. Nothing is written. *)
Theorem C10_getInvoice_serves_well_formed_documents
    (id : string) (w : World) (Hok : next_response w = true) :
  let r := (databaseService.getInvoice id w).1 in
  ((exists inv, r = Ok inv)
   <-> exists fields, invoices w !! id = Some fields /\ servable fields)
  /\ (forall fields mime,
        invoices w !! id = Some fields ->
        string_field fields "mimeType" = Some mime ->
        (usable_pages fields ≠ [] -> r = Ok (usable_pages fields, mime))
        /\ (forall data,
              usable_pages fields = [] ->
              string_field fields "invoiceData" = Some data ->
              r = Ok ([data], mime))
        /\ (usable_pages fields = [] ->
            string_field fields "invoiceData" = None ->
            r = Throw (Error "Nenhuma página encontrada para esta nota fiscal.")))
  /\ (invoices w !! id = None -> r = Throw (Error "Nota fiscal não encontrada."))
  /\ (forall fields,
        invoices w !! id = Some fields ->
        string_field fields "mimeType" = None ->
        r = Throw (Error "Formato da nota fiscal inválido no banco de dados."))
  /\ invoices (databaseService.getInvoice id w).2 = invoices w
  /\ compras (databaseService.getInvoice id w).2 = compras w.
Proof.
  cbv zeta. rewrite getInvoice_run. simpl. rewrite Hok.
  rewrite after_call_invoices, after_call_compras.
  split.
  { destruct (invoices w !! id) as [fields|].
    - rewrite read_invoice_ok. split.
      + intros H. exists fields. by split.
      + intros (fields' & [= <-] & H). exact H.
    - split; [intros [? [=]]|intros (? & [=] & _)]. }
  split.
  { intros fields mime Hf Hm. rewrite Hf. unfold read_invoice. rewrite Hm.
    split; [|split].
    - intros Hne. by destruct (usable_pages fields).
    - intros data Hnil Hd. by rewrite Hnil, Hd.
    - intros Hnil Hd. by rewrite Hnil, Hd. }
  split; [by intros ->|].
  split; [|done].
  intros fields Hf Hm. rewrite Hf. unfold read_invoice. by rewrite Hm.
Qed.

Definition legacy_invoice : fsdoc :=
  list_to_map [ ("mimeType", stringValue "application/pdf");
                ("invoiceData", stringValue "JVBERi0=") ].

Definition sample_invoices : gmap string fsdoc :=
  list_to_map
    [ ("legacy", legacy_invoice);
      ("blank", list_to_map [ ("mimeType", stringValue "image/png");
                              ("pages", arrayValue [ stringValue "" ]) ]);
      ("untyped", list_to_map [ ("pages", arrayValue [ stringValue "aGVsbG8=" ]) ]) ].

Definition invoice_world : World :=
  mkWorld ∅ sample_invoices "2024-05-02T10:00:00.000Z" [] false [].

Lemma C10_getInvoice_witness :
  let id := "legacy" in
  let w := invoice_world in
  let r := (databaseService.getInvoice id w).1 in
  ((exists inv, r = Ok inv)
   <-> exists fields, invoices w !! id = Some fields /\ servable fields)
  /\ (forall fields mime,
        invoices w !! id = Some fields ->
        string_field fields "mimeType" = Some mime ->
        (usable_pages fields ≠ [] -> r = Ok (usable_pages fields, mime))
        /\ (forall data,
              usable_pages fields = [] ->
              string_field fields "invoiceData" = Some data ->
              r = Ok ([data], mime))
        /\ (usable_pages fields = [] ->
            string_field fields "invoiceData" = None ->
            r = Throw (Error "Nenhuma página encontrada para esta nota fiscal.")))
  /\ (invoices w !! id = None -> r = Throw (Error "Nota fiscal não encontrada."))
  /\ (forall fields,
        invoices w !! id = Some fields ->
        string_field fields "mimeType" = None ->
        r = Throw (Error "Formato da nota fiscal inválido no banco de dados."))
  /\ invoices (databaseService.getInvoice id w).2 = invoices w
  /\ compras (databaseService.getInvoice id w).2 = compras w.
Proof.
  apply (C10_getInvoice_serves_well_formed_documents "legacy" invoice_world).
  reflexivity.
Defined.

(** The four cases of C10, run. *)
Example getInvoice_cases :
  (databaseService.getInvoice "legacy" invoice_world).1
    = Ok ([ "JVBERi0=" ], "application/pdf")
  /\ (databaseService.getInvoice "blank" invoice_world).1
    = Throw (Error "Nenhuma página encontrada para esta nota fiscal.")
  /\ (databaseService.getInvoice "untyped" invoice_world).1
    = Throw (Error "Formato da nota fiscal inválido no banco de dados.")
  /\ (databaseService.getInvoice "absent" invoice_world).1
    = Throw (Error "Nota fiscal não encontrada.").
Proof. repeat split; vm_compute; reflexivity. Qed.

(** ** C8: an invoice attached is the invoice read *)

Definition invoice_stored (id : string) (fields : fsdoc) (w : World) : World :=
  set_invoices
    (<[id := if fsMerge w then fields ∪ default ∅ (invoices w !! id) else fields]>
       (invoices w))
    (after_call (PatchInvoice id fields) w).

Lemma fetch_patch_invoice_run id fields w :
  fetch_patch_invoice id fields w =
    if next_response w
    then (Ok (mkResponse true tt), invoice_stored id fields w)
    else (Ok (mkResponse false tt), after_call (PatchInvoice id fields) w).
Proof.
  unfold fetch_patch_invoice, invoice_stored.
  rewrite next_ok_log, after_call_invoices, after_call_fsMerge. reflexivity.
Qed.

Definition link_body (inv : databaseService.invoice) : jsobj :=
  <[ "invoicePagesCount" :=
       JNum (inject_Z (Z.of_nat (length (databaseService.pages inv)))) ]>
    {[ "hasInvoice" := JBool true ]}.

Definition attached (id : string) (inv : databaseService.invoice) (w : World)
    : World :=
  patched id (link_body inv)
    (invoice_stored id (databaseService.invoice_fields inv (clock w)) w).

Lemma all_ok_invoice_stored id fields w : all_ok w -> all_ok (invoice_stored id fields w).
Proof.
  intros H. unfold invoice_stored. apply all_ok_set_invoices.
  by apply all_ok_after_call.
Qed.

Lemma all_ok_patched id body w : all_ok w -> all_ok (patched id body w).
Proof.
  intros H. unfold patched. apply all_ok_set_compras. by apply all_ok_after_call.
Qed.

Lemma uploadAndLinkInvoice_empty id mime name w :
  databaseService.uploadAndLinkInvoice id (databaseService.mkInvoice [] mime name) w
  = (Throw (Error "Nenhuma página foi processada para a nota fiscal."), w).
Proof. reflexivity. Qed.

Lemma uploadAndLinkInvoice_run id inv w :
  databaseService.pages inv ≠ [] -> all_ok w ->
  databaseService.uploadAndLinkInvoice id inv w = (Ok tt, attached id inv w).
Proof.
  intros Hpages Hok. unfold databaseService.uploadAndLinkInvoice.
  destruct (databaseService.pages inv) as [|p ps] eqn:Ep; [done|]. simpl.
  unfold bind, now. simpl.
  rewrite fetch_patch_invoice_run, (all_ok_next w Hok). simpl.
  rewrite fetch_patch_compra_run.
  rewrite (all_ok_next _ (all_ok_invoice_stored id _ w Hok)). simpl.
  unfold attached, link_body. by rewrite Ep.
Qed.

Lemma invoice_fields_mimeType inv t :
  databaseService.invoice_fields inv t !! "mimeType"
  = Some (stringValue (databaseService.mimeType inv)).
Proof.
  unfold databaseService.invoice_fields.
  destruct (databaseService.originalName inv) as [[|c s]|]; reflexivity.
Qed.

Lemma invoice_fields_pages inv t :
  databaseService.invoice_fields inv t !! "pages"
  = Some (arrayValue (stringValue <$> databaseService.pages inv)).
Proof.
  unfold databaseService.invoice_fields.
  destruct (databaseService.originalName inv) as [[|c s]|]; reflexivity.
Qed.

Lemma attached_invoice id inv w :
  exists doc,
    invoices (attached id inv w) !! id = Some doc
    /\ doc !! "mimeType" = Some (stringValue (databaseService.mimeType inv))
    /\ doc !! "pages"
       = Some (arrayValue (stringValue <$> databaseService.pages inv)).
Proof.
  unfold attached, patched, invoice_stored. simpl.
  rewrite after_call_invoices. simpl. rewrite lookup_insert_eq.
  eexists. split; [reflexivity|].
  destruct (fsMerge w).
  - split; apply lookup_union_Some_l;
      [apply invoice_fields_mimeType|apply invoice_fields_pages].
  - split; [apply invoice_fields_mimeType|apply invoice_fields_pages].
Qed.

Lemma usable_string_pages (pages : list string) :
  Forall (fun p => p ≠ "") pages ->
  filter (fun s => s ≠ "") (omap as_string (stringValue <$> pages)) = pages.
Proof.
  induction 1 as [|p ps Hp _ IH]; [reflexivity|]. simpl.
  rewrite filter_cons, decide_True by done. f_equal. exact IH.
Qed.

(** Any invoice with a non-empty MIME type and non-empty pages, at least
    one, is read back as attached. *)
Lemma invoice_round_trip id inv w :
  all_ok w ->
  databaseService.pages inv ≠ [] ->
  Forall (fun p => p ≠ "") (databaseService.pages inv) ->
  databaseService.mimeType inv ≠ "" ->
  (databaseService.uploadAndLinkInvoice id inv w).1 = Ok tt
  /\ (databaseService.getInvoice id
        (databaseService.uploadAndLinkInvoice id inv w).2).1
     = Ok (databaseService.pages inv, databaseService.mimeType inv).
Proof.
  intros Hok Hne Hpages Hmime.
  rewrite (uploadAndLinkInvoice_run id inv w Hne Hok). cbn [fst snd].
  split; [reflexivity|].
  rewrite getInvoice_run. cbn [fst snd].
  destruct (attached_invoice id inv w) as (doc & Hdoc & Hm & Hp).
  rewrite Hdoc.
  rewrite (all_ok_next (attached id inv w)
             (all_ok_patched _ _ _ (all_ok_invoice_stored _ _ _ Hok))).
  unfold read_invoice, string_field, usable_pages. rewrite Hm, Hp.
  rewrite decide_False by done.
  rewrite (usable_string_pages _ Hpages).
  by destruct (databaseService.pages inv).
Qed.

(** C8: when both stores answer, attaching the one page ["aGVsbG8="] with
    MIME type ["image/jpeg"] to any request and reading the invoice of
    that request returns that page sequence and that MIME type, and the
    request is flagged with one page; attaching an empty page list raises
    an error and issues no request: the world is as it was. *)
Theorem C8_invoice_attach_read_round_trip
    (id : string) (name : option string) (w : World) (Hok : all_ok w) :
  let inv := databaseService.mkInvoice [ "aGVsbG8=" ] "image/jpeg" name in
  let up := databaseService.uploadAndLinkInvoice id inv w in
  up.1 = Ok tt
  /\ (databaseService.getInvoice id up.2).1 = Ok ([ "aGVsbG8=" ], "image/jpeg")
  /\ get (doc_at up.2 id) "hasInvoice" = Val (JBool true)
  /\ get (doc_at up.2 id) "invoicePagesCount" = Val (JNum 1)
  /\ (forall mime name',
        databaseService.uploadAndLinkInvoice id
          (databaseService.mkInvoice [] mime name') w
        = (Throw (Error "Nenhuma página foi processada para a nota fiscal."), w)).
Proof.
  cbv zeta.
  set (inv := databaseService.mkInvoice [ "aGVsbG8=" ] "image/jpeg" name).
  destruct (invoice_round_trip id inv w Hok) as [Hup Hread]; try done.
  { repeat constructor; done. }
  split; [exact Hup|]. split; [exact Hread|].
  rewrite (uploadAndLinkInvoice_run id inv w) by done. cbn [fst snd].
  unfold attached. rewrite doc_at_patched.
  split; [by apply get_union_l|]. split; [by apply get_union_l|].
  intros mime name'. apply uploadAndLinkInvoice_empty.
Qed.

Lemma C8_invoice_round_trip_witness :
  let id := "r2" in
  let w := sample_world {[ "r2" := sample_request "comprado" ]} in
  let inv := databaseService.mkInvoice [ "aGVsbG8=" ] "image/jpeg" (Some "nota.pdf") in
  let up := databaseService.uploadAndLinkInvoice id inv w in
  up.1 = Ok tt
  /\ (databaseService.getInvoice id up.2).1 = Ok ([ "aGVsbG8=" ], "image/jpeg")
  /\ get (doc_at up.2 id) "hasInvoice" = Val (JBool true)
  /\ get (doc_at up.2 id) "invoicePagesCount" = Val (JNum 1)
  /\ (forall mime name',
        databaseService.uploadAndLinkInvoice id
          (databaseService.mkInvoice [] mime name') w
        = (Throw (Error "Nenhuma página foi processada para a nota fiscal."), w)).
Proof.
  apply (C8_invoice_attach_read_round_trip "r2" (Some "nota.pdf")
           (sample_world {[ "r2" := sample_request "comprado" ]})).
  unfold all_ok. simpl. constructor.
Defined.

(* ===================================================================== *)
(** * Further properties of the code *)
(* ===================================================================== *)

Set Warnings "-clear-no-such-hyp".

(** ** The views of each role *)

Lemma visibleNavItems_role u :
  App.visibleNavItems u =
    match role_or_user u with
    | admin => App.allNavItems
    | comprador => [ App.formulario; App.setor_compras ]
    | aprovador => [ App.formulario; App.aprovar_compras ]
    | user => [ App.formulario ]
    end.
Proof. unfold App.visibleNavItems. by destruct (role_or_user u). Qed.

Lemma role_or_user_admin u : role_or_user u = admin <-> role u = Some admin.
Proof.
  unfold role_or_user. destruct (role u) as [r|]; simpl; split; congruence.
Qed.

(** X1: the views a signed-in user can make active are exactly those the
    [App] lists for the role (an absent role counting as ['user']): the
    sidebar, the effect that picks the first view and the [Admin] entry
    never lead anywhere else, and each listed view can be reached. *)
Theorem X1_reachable_views_are_the_role_permissions (u : User) (v : App.view) :
  App.reachable u v <-> v ∈ App.rolePermissions (role_or_user u).
Proof.
  split.
  - intros Hreach. induction Hreach as [|v v' _ _ Hclick].
    + destruct (role_or_user u); set_solver.
    + destruct Hclick as [v|v item Hin|v Hadmin].
      * unfold App.defaultView. destruct (role_or_user u); set_solver.
      * rewrite visibleNavItems_role in Hin. unfold App.allNavItems in Hin.
        destruct (role_or_user u); set_solver.
      * apply role_or_user_admin in Hadmin. rewrite Hadmin. set_solver.
  - intros Hin.
    assert (Hnav : v ∈ App.visibleNavItems u -> App.reachable u v).
    { intros H. eapply App.reach_click; [apply App.reach_init|].
      by apply App.click_nav. }
    destruct (decide (v = App.admin_view)) as [->|Hne].
    + assert (Hadmin : role_or_user u = admin).
      { destruct (role_or_user u); set_solver. }
      eapply App.reach_click; [apply App.reach_init|].
      apply App.click_admin. by apply role_or_user_admin.
    + apply Hnav. rewrite visibleNavItems_role. unfold App.allNavItems.
      destruct (role_or_user u); set_solver.
Qed.

(** ** The sidebar badges along the lifecycle *)

(** The badges [fetchCounts] computes from the stored requests. *)
Definition badges (w : World) : App.Counts :=
  App.derivedCounts (databaseService.with_id <$> map_to_list (compras w)).

Lemma badges_sizes w :
  badges w = App.mkCounts (size (stored_with_status "pendente" (compras w)))
                          (size (stored_with_status "aprovado" (compras w))).
Proof.
  unfold badges, App.derivedCounts. by rewrite !count_with_status, !count_listing.
Qed.

Lemma fetchCounts_badges old w :
  next_response w = true -> (App.fetchCounts old w).1 = Ok (badges w).
Proof. intros H. by rewrite fetchCounts_run, H. Qed.

(** Whether a document counts for status [s]. *)
Definition counts_for (s : string) (doc : jsobj) : nat :=
  if str_is (get doc "status") s then 1 else 0.

Lemma stored_with_status_fresh s k doc (m : gmap string jsobj) :
  m !! k = None ->
  size (stored_with_status s (<[k := doc]> m))
  = size (stored_with_status s m) + counts_for s doc.
Proof.
  intros Hk. unfold stored_with_status, counts_for.
  destruct (str_is (get doc "status") s) eqn:E.
  - apply str_is_status in E. rewrite map_filter_insert_True by done.
    rewrite map_size_insert_None by (apply map_lookup_filter_None_2; by left).
    by rewrite Nat.add_1_r.
  - rewrite map_filter_insert_False.
    + rewrite delete_id by done. by rewrite Nat.add_0_r.
    + simpl. intros H. apply str_is_status in H. congruence.
Qed.


(** X2: a valid draft, once submitted to a store that answers, adds
    exactly one stored request and exactly one pending approval: the
    badges [fetchCounts] computes afterwards are those before with the
    approvals count one higher and the purchases count as it was. *)
Theorem X2_submit_adds_one_pending_approval
    (u : User) (cb : option (M unit)) (st : State) (w : World) (old : App.Counts)
    (Hvalid : validate (formData st) = [])
    (Hok : all_ok w) (Hcb : reads_only cb) :
  let w' := (handleSubmit u cb st w).2 in
  exists approvals purchases,
    (App.fetchCounts old w).1 = Ok (App.mkCounts approvals purchases)
    /\ (App.fetchCounts old w').1 = Ok (App.mkCounts (S approvals) purchases)
    /\ size (compras w') = S (size (compras w)).
Proof.
  cbv zeta.
  rewrite (handleSubmit_valid u cb st w Hvalid (all_ok_next w Hok) Hcb).
  cbn [fst snd].
  set (w' := after_callback cb (submitted (formData st) u w)).
  assert (Hok' : next_response w' = true).
  { apply all_ok_next, all_ok_after_callback; [done|]. by apply all_ok_submitted. }
  assert (Hc : compras w'
               = <[new_key w := requestData (formData st) u (clock w)]> (compras w)).
  { unfold w'. by rewrite (after_callback_compras cb _ Hcb), submitted_compras. }
  exists (size (stored_with_status "pendente" (compras w))),
         (size (stored_with_status "aprovado" (compras w))).
  rewrite (fetchCounts_badges old w (all_ok_next w Hok)).
  rewrite (fetchCounts_badges old w' Hok').
  rewrite !badges_sizes, Hc.
  rewrite !stored_with_status_fresh by apply new_key_fresh.
  rewrite map_size_insert_None by apply new_key_fresh.
  repeat split. do 2 f_equal.
  - change (counts_for "pendente" _) with 1. lia.
  - change (counts_for "aprovado" _) with 0. lia.
Qed.

Lemma X2_submit_witness :
  let w := sample_world {[ "r1" := sample_request "aprovado" ]} in
  let w' := (handleSubmit sample_user None sample_form w).2 in
  exists approvals purchases,
    (App.fetchCounts (App.mkCounts 0 0) w).1 = Ok (App.mkCounts approvals purchases)
    /\ (App.fetchCounts (App.mkCounts 0 0) w').1
       = Ok (App.mkCounts (S approvals) purchases)
    /\ size (compras w') = S (size (compras w)).
Proof.
  apply (X2_submit_adds_one_pending_approval sample_user None sample_form
           (sample_world {[ "r1" := sample_request "aprovado" ]})
           (App.mkCounts 0 0)).
  - reflexivity.
  - unfold all_ok. simpl. constructor.
  - simpl. exact I.
Defined.



(** ** Submitting: the store refuses, and submitting twice *)

(** X4: when the store refuses the [POST] of a valid draft, the form
    shows the message of the error [addPurchaseRequest] throws, keeps the
    draft as typed, and nothing else happens: the stored requests are
    unchanged and the only request issued is the [POST] itself, so no
    confirmation is mailed and the approvers are not notified. *)
Theorem X4_refused_submit_keeps_the_draft
    (u : User) (cb : option (M unit)) (st : State) (w : World)
    (Hvalid : validate (formData st) = [])
    (Hrefused : next_response w = false) :
  let body := requestData (formData st) u (clock w) in
  let r := handleSubmit u cb st w in
  exists msg,
    (databaseService.addPurchaseRequest body w).1 = Throw (Error msg)
    /\ r.1 = Ok (mkState (formData st) false (Some (mkSubmitStatus msg error)))
    /\ compras r.2 = compras w
    /\ sent r.2 = (sent w ++ [ PostCompras body ])%list.
Proof.
  cbv zeta. unfold handleSubmit. rewrite Hvalid. simpl.
  unfold bind, try_catch, now. simpl.
  rewrite addPurchaseRequest_run, Hrefused. simpl.
  eexists. split; [reflexivity|].
  by rewrite after_call_compras, after_call_sent.
Qed.

Lemma X4_refused_submit_witness :
  let w := mkWorld ∅ ∅ "2024-05-02T10:00:00.000Z" [ false ] false [] in
  let body := requestData (formData sample_form) sample_user (clock w) in
  let r := handleSubmit sample_user None sample_form w in
  exists msg,
    (databaseService.addPurchaseRequest body w).1 = Throw (Error msg)
    /\ r.1 = Ok (mkState (formData sample_form) false
                   (Some (mkSubmitStatus msg error)))
    /\ compras r.2 = compras w
    /\ sent r.2 = (sent w ++ [ PostCompras body ])%list.
Proof.
  apply (X4_refused_submit_keeps_the_draft sample_user None sample_form
           (mkWorld ∅ ∅ "2024-05-02T10:00:00.000Z" [ false ] false [])).
  - reflexivity.
  - reflexivity.
Defined.




(** ** Listing the requests *)

Lemma with_id_lookup k (doc : jsobj) f :
  databaseService.with_id (k, doc) !! f
  = if decide (f = "id") then Some (default (JStr k) (doc !! "id")) else doc !! f.
Proof.
  unfold databaseService.with_id, spread. simpl. rewrite lookup_union.
  case_decide as Hf.
  - subst f. rewrite lookup_singleton_eq. by destruct (doc !! "id").
  - rewrite lookup_singleton_ne by done. by destruct (doc !! f).
Qed.

(** X6: when the store answers, the listing holds one object per stored
    request and nothing else: each object is a stored document with its
    key added as [id], and a stored field named [id] wins over the key;
    every other field is as stored. Listing changes no stored request. *)
Theorem X6_listing_is_one_object_per_stored_request
    (w : World) (Hok : next_response w = true) :
  exists listed,
    (databaseService.getPurchaseRequests w).1 = Ok listed
    /\ length listed = size (compras w)
    /\ (forall k doc, compras w !! k = Some doc ->
          exists r, r ∈ listed
                    /\ r !! "id" = Some (default (JStr k) (doc !! "id"))
                    /\ forall f, f ≠ "id" -> r !! f = doc !! f)
    /\ (forall r, r ∈ listed ->
          exists k doc, compras w !! k = Some doc
                        /\ r = doc ∪ {[ "id" := JStr k ]})
    /\ compras (databaseService.getPurchaseRequests w).2 = compras w.
Proof.
  rewrite getPurchaseRequests_run, Hok. cbn [fst snd].
  eexists. split; [reflexivity|].
  split; [by rewrite length_fmap, length_map_to_list|].
  split; [|split].
  - intros k doc Hk. exists (databaseService.with_id (k, doc)).
    split; [by apply listed_of_stored|].
    split.
    + by rewrite with_id_lookup, decide_True.
    + intros f Hf. by rewrite with_id_lookup, decide_False.
  - intros r Hr. apply list_elem_of_fmap in Hr as [[k doc] [-> Hin]].
    apply elem_of_map_to_list in Hin. by exists k, doc.
  - apply after_call_compras.
Qed.

Lemma X6_listing_witness :
  let w := sample_world {[ "r1" := sample_request "pendente";
                           "r2" := <[ "id" := JStr "outro" ]> (sample_request "aprovado") ]} in
  exists listed,
    (databaseService.getPurchaseRequests w).1 = Ok listed
    /\ length listed = size (compras w)
    /\ (forall k doc, compras w !! k = Some doc ->
          exists r, r ∈ listed
                    /\ r !! "id" = Some (default (JStr k) (doc !! "id"))
                    /\ forall f, f ≠ "id" -> r !! f = doc !! f)
    /\ (forall r, r ∈ listed ->
          exists k doc, compras w !! k = Some doc
                        /\ r = doc ∪ {[ "id" := JStr k ]})
    /\ compras (databaseService.getPurchaseRequests w).2 = compras w.
Proof.
  apply (X6_listing_is_one_object_per_stored_request
           (sample_world {[ "r1" := sample_request "pendente";
                            "r2" := <[ "id" := JStr "outro" ]> (sample_request "aprovado") ]})).
  reflexivity.
Defined.

(** ** Invoices: what is read back, and the two writes *)

Lemma usable_of_string_pages (pages : list string) :
  filter (fun s => s ≠ "") (omap as_string (stringValue <$> pages))
  = filter (fun s => s ≠ "") pages.
Proof.
  induction pages as [|p ps IH]; [reflexivity|].
  change (filter (fun s => s ≠ "")
            (p :: omap as_string (stringValue <$> ps))
          = filter (fun s => s ≠ "") (p :: ps)).
  rewrite !filter_cons. case_decide; by rewrite IH.
Qed.

Lemma read_after_attach id inv w :
  all_ok w -> databaseService.pages inv ≠ [] ->
  (databaseService.getInvoice id
     (databaseService.uploadAndLinkInvoice id inv w).2).1
  = match invoices (attached id inv w) !! id with
    | Some fields => read_invoice fields
    | None => Throw (Error "Nota fiscal não encontrada.")
    end.
Proof.
  intros Hok Hne.
  rewrite (uploadAndLinkInvoice_run id inv w Hne Hok). cbn [fst snd].
  rewrite getInvoice_run. cbn [fst snd].
  rewrite (all_ok_next (attached id inv w)
             (all_ok_patched _ _ _ (all_ok_invoice_stored _ _ _ Hok))).
  reflexivity.
Qed.

(** X7: for any invoice with a non-empty MIME type and at least one
    non-empty page, attached to any request (with or without an invoice
    already) while both stores answer, reading the invoice returns the
    MIME type and the pages attached without the empty ones, in order.
    The request is flagged with the number of pages attached, the empty
    ones included. *)
Theorem X7_invoice_read_back_drops_empty_pages
    (id : string) (inv : databaseService.invoice) (w : World)
    (Hok : all_ok w)
    (Hmime : databaseService.mimeType inv ≠ "")
    (Hpages : filter (fun p => p ≠ "") (databaseService.pages inv) ≠ []) :
  let up := databaseService.uploadAndLinkInvoice id inv w in
  up.1 = Ok tt
  /\ (databaseService.getInvoice id up.2).1
     = Ok (filter (fun p => p ≠ "") (databaseService.pages inv),
           databaseService.mimeType inv)
  /\ get (doc_at up.2 id) "hasInvoice" = Val (JBool true)
  /\ get (doc_at up.2 id) "invoicePagesCount"
     = Val (JNum (inject_Z (Z.of_nat (length (databaseService.pages inv))))).
Proof.
  cbv zeta.
  assert (Hne : databaseService.pages inv ≠ []).
  { intros E. rewrite E in Hpages. by apply Hpages. }
  rewrite (read_after_attach id inv w Hok Hne).
  rewrite (uploadAndLinkInvoice_run id inv w Hne Hok). cbn [fst snd].
  split; [reflexivity|].
  destruct (attached_invoice id inv w) as (doc & Hdoc & Hm & Hp).
  rewrite Hdoc. split.
  - unfold read_invoice, string_field, usable_pages. rewrite Hm, Hp.
    rewrite decide_False by done. rewrite usable_of_string_pages.
    by destruct (filter _ (databaseService.pages inv)).
  - unfold attached. rewrite doc_at_patched. unfold link_body.
    split; by apply get_union_l.
Qed.

Lemma X7_invoice_read_back_witness :
  let inv := databaseService.mkInvoice [ "AAEC"; ""; "AwQF" ] "image/png" None in
  let w := sample_world {[ "r2" := sample_request "comprado" ]} in
  let up := databaseService.uploadAndLinkInvoice "r2" inv w in
  up.1 = Ok tt
  /\ (databaseService.getInvoice "r2" up.2).1
     = Ok (filter (fun p => p ≠ "") (databaseService.pages inv),
           databaseService.mimeType inv)
  /\ get (doc_at up.2 "r2") "hasInvoice" = Val (JBool true)
  /\ get (doc_at up.2 "r2") "invoicePagesCount"
     = Val (JNum (inject_Z (Z.of_nat (length (databaseService.pages inv))))).
Proof.
  apply (X7_invoice_read_back_drops_empty_pages "r2"
           (databaseService.mkInvoice [ "AAEC"; ""; "AwQF" ] "image/png" None)
           (sample_world {[ "r2" := sample_request "comprado" ]})).
  - unfold all_ok. simpl. constructor.
  - simpl. discriminate.
  - vm_compute. discriminate.
Defined.

Lemma next_response_invoice_stored id fields w :
  next_response (invoice_stored id fields w) = hd true (tl (net w)).
Proof.
  unfold next_response, invoice_stored. cbn [net set_invoices].
  by rewrite after_call_net.
Qed.

Lemma uploadAndLinkInvoice_link_refused id inv w :
  databaseService.pages inv ≠ [] ->
  next_response w = true -> hd true (tl (net w)) = false ->
  databaseService.uploadAndLinkInvoice id inv w
  = (Throw (Error "Falha ao vincular a nota fiscal no Realtime DB."),
     after_call (PatchCompra id (link_body inv))
       (invoice_stored id (databaseService.invoice_fields inv (clock w)) w)).
Proof.
  intros Hne H1 H2. unfold databaseService.uploadAndLinkInvoice.
  destruct (databaseService.pages inv) as [|p ps] eqn:Ep; [done|].
  cbn [length Nat.eqb]. unfold bind, now.
  rewrite fetch_patch_invoice_run, H1. cbn [ok negb].
  rewrite fetch_patch_compra_run, next_response_invoice_stored, H2.
  unfold link_body. by rewrite Ep.
Qed.

Lemma uploadAndLinkInvoice_save_refused id inv w :
  databaseService.pages inv ≠ [] ->
  next_response w = false ->
  databaseService.uploadAndLinkInvoice id inv w
  = (Throw (Error "Falha ao salvar a nota fiscal no Firestore."),
     after_call (PatchInvoice id (databaseService.invoice_fields inv (clock w))) w).
Proof.
  intros Hne H1. unfold databaseService.uploadAndLinkInvoice.
  destruct (databaseService.pages inv) as [|p ps] eqn:Ep; [done|].
  cbn [length Nat.eqb]. unfold bind, now.
  by rewrite fetch_patch_invoice_run, H1.
Qed.

Lemma invoice_stored_doc id inv w :
  exists doc,
    invoices (invoice_stored id (databaseService.invoice_fields inv (clock w)) w) !! id
      = Some doc
    /\ doc !! "mimeType" = Some (stringValue (databaseService.mimeType inv))
    /\ doc !! "pages"
       = Some (arrayValue (stringValue <$> databaseService.pages inv)).
Proof.
  unfold invoice_stored. cbn [invoices set_invoices]. rewrite lookup_insert_eq.
  eexists. split; [reflexivity|].
  destruct (fsMerge w).
  - split; apply lookup_union_Some_l;
      [apply invoice_fields_mimeType|apply invoice_fields_pages].
  - split; [apply invoice_fields_mimeType|apply invoice_fields_pages].
Qed.

(** X8: the two writes of an attachment are not atomic. When the
    attribute store accepts the invoice and the document tree then
    refuses the link, [uploadAndLinkInvoice] throws, the request is left
    without its [hasInvoice] flag and page count, and the invoice stays
    stored: a later read that the store answers still returns it. When
    the first write is refused, neither store is written. *)
Theorem X8_invoice_link_refused_leaves_the_invoice
    (id : string) (inv : databaseService.invoice) (w : World) (rest : list bool)
    (Hnet : net w = true :: false :: true :: rest)
    (Hmime : databaseService.mimeType inv ≠ "")
    (Hpages : filter (fun p => p ≠ "") (databaseService.pages inv) ≠ []) :
  let up := databaseService.uploadAndLinkInvoice id inv w in
  up.1 = Throw (Error "Falha ao vincular a nota fiscal no Realtime DB.")
  /\ compras up.2 = compras w
  /\ (databaseService.getInvoice id up.2).1
     = Ok (filter (fun p => p ≠ "") (databaseService.pages inv),
           databaseService.mimeType inv)
  /\ (forall w0, net w0 = false :: rest ->
        let up0 := databaseService.uploadAndLinkInvoice id inv w0 in
        up0.1 = Throw (Error "Falha ao salvar a nota fiscal no Firestore.")
        /\ compras up0.2 = compras w0 /\ invoices up0.2 = invoices w0).
Proof.
  cbv zeta.
  assert (Hne : databaseService.pages inv ≠ []).
  { intros E. rewrite E in Hpages. by apply Hpages. }
  rewrite (uploadAndLinkInvoice_link_refused id inv w Hne)
    by (unfold next_response; by rewrite Hnet).
  cbn [fst snd].
  split; [reflexivity|]. split; [|split].
  - rewrite after_call_compras. unfold invoice_stored.
    cbn [compras set_invoices]. apply after_call_compras.
  - rewrite getInvoice_run. cbn [fst]. rewrite after_call_invoices.
    destruct (invoice_stored_doc id inv w) as (doc & Hdoc & Hm & Hp).
    rewrite Hdoc.
    assert (Hnext : next_response
              (after_call (PatchCompra id (link_body inv))
                 (invoice_stored id
                    (databaseService.invoice_fields inv (clock w)) w)) = true).
    { unfold next_response. rewrite after_call_net.
      unfold invoice_stored. cbn [net set_invoices]. by rewrite after_call_net, Hnet. }
    rewrite Hnext.
    unfold read_invoice, string_field, usable_pages. rewrite Hm, Hp.
    rewrite decide_False by done. rewrite usable_of_string_pages.
    by destruct (filter _ (databaseService.pages inv)).
  - intros w0 Hnet0.
    rewrite (uploadAndLinkInvoice_save_refused id inv w0 Hne)
      by (unfold next_response; by rewrite Hnet0).
    cbn [fst snd]. by rewrite after_call_compras, after_call_invoices.
Qed.

Lemma X8_invoice_link_refused_witness :
  let inv := databaseService.mkInvoice [ "AAEC" ] "image/png" None in
  let w := mkWorld {[ "r2" := sample_request "comprado" ]} ∅
             "2024-05-02T10:00:00.000Z" [ true; false; true ] false [] in
  let up := databaseService.uploadAndLinkInvoice "r2" inv w in
  up.1 = Throw (Error "Falha ao vincular a nota fiscal no Realtime DB.")
  /\ compras up.2 = compras w
  /\ (databaseService.getInvoice "r2" up.2).1
     = Ok (filter (fun p => p ≠ "") (databaseService.pages inv),
           databaseService.mimeType inv)
  /\ (forall w0, net w0 = [ false ] ->
        let up0 := databaseService.uploadAndLinkInvoice "r2" inv w0 in
        up0.1 = Throw (Error "Falha ao salvar a nota fiscal no Firestore.")
        /\ compras up0.2 = compras w0 /\ invoices up0.2 = invoices w0).
Proof.
  apply (X8_invoice_link_refused_leaves_the_invoice "r2"
           (databaseService.mkInvoice [ "AAEC" ] "image/png" None)
           (mkWorld {[ "r2" := sample_request "comprado" ]} ∅
              "2024-05-02T10:00:00.000Z" [ true; false; true ] false [])
           []).
  - reflexivity.
  - simpl. discriminate.
  - vm_compute. discriminate.
Defined.
